(** * Incident triage assistant: classification fallback and CRUD orchestration

    A shallow embedding of the Go packages [domain], [service], [repository]
    and [usecase], followed by the properties established for them.  What
    these packages call in the Go standard library, in the OpenAI client and
    in the database ([strings.TrimSpace], [json.Unmarshal], [os.Getenv],
    [CreateChatCompletion], [database/sql] over the [incidents] table) is
    modelled alongside, each in a module named after its package.

    Conventions of the embedding:
    - a Go [string] is a byte sequence, here [string] (a list of [ascii]);
    - a Go [int] is an integer [Z]; identifiers handled here are the values of
      a MySQL [INT AUTO_INCREMENT] column, so no wrap-around occurs in
      [int(id)];
    - a Go [error] is a value of [error]: [nil] is [None], the pair
      [(v, nil)] is [Ok v] and [(nil, err)] is [Err err];
    - a method that reads or writes the outside world (database, remote
      completion service, wall clock) is a state transformer [M W A] over a
      world [W];
    - a pointer argument that the callee may write through ([*Incident]) is
      passed by value and handed back with the result;
    - a [time.Time] is the instant it denotes, in nanoseconds; the two
      [TIMESTAMP] columns of the table keep whole seconds, so what is read
      back from a row is the instant that was sent, to the second. *)

From Stdlib Require Import ZArith NArith QArith Ascii.
From stdpp Require Import base option list strings gmap sorting pretty.

Set Warnings "-register-all".

Local Open Scope Z_scope.

(** ** Go errors *)

(** [errors.New] / [fmt.Errorf] without [%w] build an [errorString];
    [fmt.Errorf] with a [%w] verb builds a [wrapError] that keeps the cause. *)
Inductive error : Type :=
| errorString (s : string)
| wrapError (msg : string) (err : error).

Definition Error (e : error) : string :=
  match e with
  | errorString s => s
  | wrapError msg _ => msg
  end.

Definition Unwrap (e : error) : option error :=
  match e with
  | errorString _ => None
  | wrapError _ err => Some err
  end.

(** Go compares errors by identity ([err == sql.ErrNoRows]); here two errors
    are the same when they are built alike. *)
#[global] Instance error_eq_dec : EqDecision error.
Proof. solve_decision. Defined.

(** [fmt.Errorf(prefix + "%w", err)] *)
Definition Errorf_w (prefix : string) (err : error) : error :=
  wrapError (prefix +:+ Error err) err.

(** [fmt.Errorf(prefix + "%d", n)] *)
Definition Errorf_d (prefix : string) (n : Z) : error :=
  errorString (prefix +:+ pretty n).

Inductive Result (A : Type) : Type :=
| Ok (a : A)
| Err (e : error).
Arguments Ok {A} a.
Arguments Err {A} e.

(** What a Go call can do: return, or panic with a value. *)
Inductive Outcome (A : Type) : Type :=
| Returned (a : A)
| Panicked (v : string).
Arguments Returned {A} a.
Arguments Panicked {A} v.

(** ** State passing *)

Definition M (W A : Type) : Type := W -> A * W.

Definition ret {W A : Type} (a : A) : M W A := fun w => (a, w).

Definition bind {W A B : Type} (m : M W A) (k : A -> M W B) : M W B :=
  fun w => let (a, w') := m w in k a w'.

Notation "'let*' x ':=' m 'in' k" := (bind m (fun x => k))
  (at level 10, x name, m at level 100, k at level 200).
Notation "'let*' ' p ':=' m 'in' k" :=
  (bind m (fun x => match x with p => k end))
  (at level 10, p pattern, m at level 100, k at level 200).

(** The ASCII double quote, and a helper to write JSON and prompt literals:
    [dq] turns every apostrophe of its argument into a double quote. *)
Definition quote : ascii := "034"%char.

Fixpoint dq (s : string) : string :=
  match s with
  | EmptyString => EmptyString
  | String c s' => String (if Ascii.eqb c "'"%char then quote else c) (dq s')
  end.

(** ** Package [domain] *)

Module domain.

(** A [time.Time], as an instant on the time line: the nanoseconds since the
    Unix epoch, which is the resolution of [time.Now()]. *)
Definition Time : Type := Z.

Record Incident : Type := {
  ID : Z;
  Title : string;
  Description : string;
  AffectedService : string;
  AISeverity : string;
  AICategory : string;
  CreatedAt : Time;
  UpdatedAt : Time
}.

Module CreateIncidentRequest.
Record t : Type := {
  Title : string;
  Description : string;
  AffectedService : string
}.
End CreateIncidentRequest.

Record IncidentAnalysis : Type := {
  Severity : string;
  Category : string
}.

(** [domain.IncidentRepository].  [Create] and [Update] take [*Incident] and
    give back what the pointer holds afterwards together with the error. *)
Class IncidentRepository (W : Type) : Type := {
  Create : Incident -> M W (Incident * option error);
  GetByID : Z -> M W (Result Incident);
  GetAll : M W (Result (list Incident));
  Update : Incident -> M W (Incident * option error);
  Delete : Z -> M W (option error)
}.

(** [domain.AIService] *)
Class AIService (W : Type) : Type := {
  AnalyzeIncident : string -> string -> string -> M W (Result IncidentAnalysis)
}.

End domain.

Import domain.

(** ** Package [time]: the wall clock read by [time.Now()] *)

Class Clock (W : Type) : Type := {
  Now : M W Time
}.

(** ** Package [strings] of the Go standard library *)

Module strings.

Definition code (c : ascii) : N := N_of_ascii c.

Definition bytes (l : list N) : string :=
  fold_right (fun n s => String (ascii_of_N n) s) EmptyString l.

Fixpoint hasPrefix (p s : string) : option string :=
  match p, s with
  | EmptyString, _ => Some s
  | String a p', String b s' => if Ascii.eqb a b then hasPrefix p' s' else None
  | String _ _, EmptyString => None
  end.

Fixpoint rev_append (s acc : string) : string :=
  match s with
  | EmptyString => acc
  | String c s' => rev_append s' (String c acc)
  end.

Definition rev (s : string) : string := rev_append s EmptyString.

(** The UTF-8 encodings of the runes for which [unicode.IsSpace] holds:
    tab, line feed, vertical tab, form feed, carriage return, space,
    U+0085, U+00A0, U+1680, U+2000 to U+200A, U+2028, U+2029, U+202F,
    U+205F and U+3000. *)
Definition spaces : list string :=
  map bytes
    [ [9]; [10]; [11]; [12]; [13]; [32];
      [194; 133]; [194; 160];
      [225; 154; 128];
      [226; 128; 128]; [226; 128; 129]; [226; 128; 130]; [226; 128; 131];
      [226; 128; 132]; [226; 128; 133]; [226; 128; 134]; [226; 128; 135];
      [226; 128; 136]; [226; 128; 137]; [226; 128; 138];
      [226; 128; 168]; [226; 128; 169]; [226; 128; 175];
      [226; 129; 159];
      [227; 128; 128] ]%N.

(** Drops one leading white-space rune, if there is one. *)
Fixpoint dropSpace (ps : list string) (s : string) : option string :=
  match ps with
  | [] => None
  | p :: ps' =>
      match hasPrefix p s with
      | Some rest => Some rest
      | None => dropSpace ps' s
      end
  end.

Fixpoint trimLeft (fuel : nat) (ps : list string) (s : string) : string :=
  match fuel with
  | O => s
  | S fuel' =>
      match dropSpace ps s with
      | Some rest => trimLeft fuel' ps rest
      | None => s
      end
  end.

(** [strings.TrimSpace]: leading and trailing white space removed.  The
    trailing side is trimmed on the reversed string against the reversed
    encodings. *)
Definition TrimSpace (s : string) : string :=
  let s1 := trimLeft (String.length s) spaces s in
  rev (trimLeft (String.length s1) (map rev spaces) (rev s1)).

End strings.

(** ** Package [encoding/json] of the Go standard library

    [json.Unmarshal] into a [*domain.IncidentAnalysis]: the text is checked
    against the JSON grammar, then decoded into the two string fields.  The
    wording and the offset of a syntax error are not modelled: every
    malformed text gives the same [SyntaxError]. *)

Module json.

Import strings.

Inductive value : Type :=
| Null
| Bool (b : bool)
| Number (lit : string)
| Str (s : string)
| Array (elems : list value)
| Object (members : list (string * value)).

Local Open Scope N_scope.

Definition isSpace (c : ascii) : bool :=
  let n := code c in (n =? 32) || (n =? 9) || (n =? 13) || (n =? 10).

Fixpoint skipSpace (s : string) : string :=
  match s with
  | EmptyString => s
  | String c s' => if isSpace c then skipSpace s' else s
  end.

Definition isDigit (c : ascii) : bool :=
  (48 <=? code c) && (code c <=? 57).

Definition hexVal (c : ascii) : option N :=
  let n := code c in
  if (48 <=? n) && (n <=? 57) then Some (n - 48)
  else if (97 <=? n) && (n <=? 102) then Some (n - 87)
  else if (65 <=? n) && (n <=? 70) then Some (n - 55)
  else None.

(** Four hexadecimal digits of a [\u] escape. *)
Definition getu4 (s : string) : option (N * string) :=
  match s with
  | String a (String b (String c (String d rest))) =>
      match hexVal a, hexVal b, hexVal c, hexVal d with
      | Some x, Some y, Some z, Some w =>
          Some (((x * 16 + y) * 16 + z) * 16 + w, rest)
      | _, _, _, _ => None
      end
  | _ => None
  end.

Definition RuneError : N := 65533.

(** [utf8.EncodeRune] *)
Definition encodeRune (r : N) : string :=
  if r <? 128 then bytes [r]
  else if r <? 2048 then bytes [192 + r / 64; 128 + r mod 64]
  else if ((55296 <=? r) && (r <? 57344)) || (1114111 <? r) then
    bytes [239; 191; 189]
  else if r <? 65536 then
    bytes [224 + r / 4096; 128 + (r / 64) mod 64; 128 + r mod 64]
  else
    bytes [240 + r / 262144; 128 + (r / 4096) mod 64;
           128 + (r / 64) mod 64; 128 + r mod 64].

Definition isSurrogate (r : N) : bool := (55296 <=? r) && (r <? 57344).

(** [utf16.DecodeRune] *)
Definition decodeSurrogates (r1 r2 : N) : N :=
  if (55296 <=? r1) && (r1 <? 56320) && (56320 <=? r2) && (r2 <? 57344)
  then (r1 - 55296) * 1024 + (r2 - 56320) + 65536
  else RuneError.

Definition inRange (lo hi : N) (c : ascii) : bool :=
  (lo <=? code c) && (code c <=? hi).

(** Length of the well-formed UTF-8 sequence at the head of [s], zero when
    the head is not the start of one ([utf8.DecodeRune] then yields
    [RuneError] of width one). *)
Definition utf8Len (s : string) : nat :=
  match s with
  | String a (String b rest) =>
      let n := code a in
      if inRange 194 223 a then
        if inRange 128 191 b then 2%nat else 0%nat
      else
        match rest with
        | String c rest' =>
            let lo := if n =? 224 then 160 else if n =? 240 then 144 else 128 in
            let hi := if n =? 237 then 159 else if n =? 244 then 143 else 191 in
            if inRange 224 239 a then
              if inRange lo hi b && inRange 128 191 c then 3%nat else 0%nat
            else if inRange 240 244 a then
              match rest' with
              | String d _ =>
                  if inRange lo hi b && inRange 128 191 c && inRange 128 191 d
                  then 4%nat else 0%nat
              | EmptyString => 0%nat
              end
            else 0%nat
        | EmptyString => 0%nat
        end
  | _ => 0%nat
  end.

Fixpoint splitAt (k : nat) (s : string) : string * string :=
  match k, s with
  | S k', String c s' => let (a, b) := splitAt k' s' in (String c a, b)
  | _, _ => (EmptyString, s)
  end.

Definition emit (out : string) (r : option (string * string))
  : option (string * string) :=
  match r with
  | Some (body, rest) => Some (out +:+ body, rest)
  | None => None
  end.

(** The escape sequence after a backslash: the bytes it stands for and the
    text after it.  A [\u] escape that is a UTF-16 surrogate is joined with a
    following [\u] escape when the two form a pair, and stands for the
    replacement rune otherwise. *)
Definition escape (s : string) : option (string * string) :=
  match s with
  | EmptyString => None
  | String e rest1 =>
      let m := code e in
      if m =? 34 then Some (bytes [34], rest1)
      else if m =? 92 then Some (bytes [92], rest1)
      else if m =? 47 then Some (bytes [47], rest1)
      else if m =? 98 then Some (bytes [8], rest1)
      else if m =? 102 then Some (bytes [12], rest1)
      else if m =? 110 then Some (bytes [10], rest1)
      else if m =? 114 then Some (bytes [13], rest1)
      else if m =? 116 then Some (bytes [9], rest1)
      else if m =? 117 then
        match getu4 rest1 with
        | None => None
        | Some (rr, rest2) =>
            if isSurrogate rr then
              let low :=
                match rest2 with
                | String b1 (String b2 rest3) =>
                    if (code b1 =? 92) && (code b2 =? 117)
                    then getu4 rest3 else None
                | _ => None
                end in
              match low with
              | Some (rr1, rest4) =>
                  let dec := decodeSurrogates rr rr1 in
                  if dec =? RuneError
                  then Some (encodeRune RuneError, rest2)
                  else Some (encodeRune dec, rest4)
              | None => Some (encodeRune RuneError, rest2)
              end
            else Some (encodeRune rr, rest2)
        end
      else None
  end.

(** One unit of the body of a string literal that does not start with the
    closing quote: an escape sequence, an ASCII character (control
    characters are refused), a well-formed UTF-8 sequence, or a stray byte
    that is replaced by the replacement rune. *)
Definition stringUnit (s : string) : option (string * string) :=
  match s with
  | EmptyString => None
  | String c rest =>
      let n := code c in
      if n =? 92 then escape rest
      else if n <? 32 then None
      else if n <? 128 then Some (String c EmptyString, rest)
      else
        match utf8Len s with
        | O => Some (encodeRune RuneError, rest)
        | k => Some (splitAt k s)
        end
  end.

(** The body of a string literal, up to and including its closing quote:
    gives the decoded bytes and the text after the literal.  Every unit
    takes at least one byte, so a fuel of one more than the length of the
    text is never used up. *)
Fixpoint unquote (fuel : nat) (s : string) : option (string * string) :=
  match fuel with
  | O => None
  | S fuel' =>
      match s with
      | EmptyString => None
      | String c rest =>
          if code c =? 34 then Some (EmptyString, rest)
          else
            match stringUnit s with
            | None => None
            | Some (out, rest') => emit out (unquote fuel' rest')
            end
      end
  end.

Fixpoint digits (s : string) : string * string :=
  match s with
  | EmptyString => (EmptyString, s)
  | String c s' =>
      if isDigit c then let (ds, r) := digits s' in (String c ds, r)
      else (EmptyString, s)
  end.

(** A number literal: an optional minus sign; then a single zero, or a
    non-zero digit followed by any digits; then optionally a point and at
    least one digit; then optionally [e] or [E], an optional sign and at
    least one digit. *)
Definition number (s : string) : option (string * string) :=
  let (sign, s0) :=
    match s with
    | String c r =>
        if code c =? 45 then (String c EmptyString, r) else (EmptyString, s)
    | EmptyString => (EmptyString, s)
    end in
  match s0 with
  | EmptyString => None
  | String c r =>
      if isDigit c then
        let (int, s1) :=
          if code c =? 48 then (String c EmptyString, r) else digits s0 in
        let frac :=
          match s1 with
          | String p r1 =>
              if code p =? 46 then
                let (ds, r2) := digits r1 in
                match ds with
                | EmptyString => None
                | _ => Some (String p ds, r2)
                end
              else Some (EmptyString, s1)
          | EmptyString => Some (EmptyString, s1)
          end in
        match frac with
        | None => None
        | Some (fr, s2) =>
            match s2 with
            | String e r2 =>
                if (code e =? 101) || (code e =? 69) then
                  let (sg, r3) :=
                    match r2 with
                    | String g r' =>
                        if (code g =? 43) || (code g =? 45)
                        then (String g EmptyString, r') else (EmptyString, r2)
                    | EmptyString => (EmptyString, r2)
                    end in
                  let (ds, r4) := digits r3 in
                  match ds with
                  | EmptyString => None
                  | _ => Some (sign +:+ int +:+ fr +:+ String e sg +:+ ds, r4)
                  end
                else Some (sign +:+ int +:+ fr, s2)
            | EmptyString => Some (sign +:+ int +:+ fr, s2)
            end
        end
      else None
  end.

Definition literal (word : string) (v : value) (s : string)
  : option (value * string) :=
  match hasPrefix word s with
  | Some rest => Some (v, rest)
  | None => None
  end.

Definition maxNestingDepth : N := 10000.

(** The recursive-descent reading of one JSON value.  [depth] counts the
    arrays and objects already open, of which the scanner allows
    [maxNestingDepth].  A value takes one call, and one more for its members
    or elements, each on a strictly shorter text, so a fuel of more than
    twice the length of the text is never used up. *)
Fixpoint parseValue (fuel : nat) (depth : N) (s : string)
  : option (value * string) :=
  match fuel with
  | O => None
  | S fuel' =>
      match skipSpace s with
      | EmptyString => None
      | String c rest =>
          let n := code c in
          if n =? 123 then
            if maxNestingDepth <=? depth then None
            else
              match skipSpace rest with
              | EmptyString => None
              | String c' rest' =>
                  if code c' =? 125 then Some (Object [], rest')
                  else
                    match parseMembers fuel' (depth + 1) rest with
                    | Some (ms, r) => Some (Object ms, r)
                    | None => None
                    end
              end
          else if n =? 91 then
            if maxNestingDepth <=? depth then None
            else
              match skipSpace rest with
              | EmptyString => None
              | String c' rest' =>
                  if code c' =? 93 then Some (Array [], rest')
                  else
                    match parseElements fuel' (depth + 1) rest with
                    | Some (vs, r) => Some (Array vs, r)
                    | None => None
                    end
              end
          else if n =? 34 then
            match unquote (S (String.length rest)) rest with
            | Some (str, r) => Some (Str str, r)
            | None => None
            end
          else if n =? 116 then literal "true" (Bool true) (String c rest)
          else if n =? 102 then literal "false" (Bool false) (String c rest)
          else if n =? 110 then literal "null" Null (String c rest)
          else
            match number (String c rest) with
            | Some (lit, r) => Some (Number lit, r)
            | None => None
            end
      end
  end
with parseMembers (fuel : nat) (depth : N) (s : string)
  : option (list (string * value) * string) :=
  match fuel with
  | O => None
  | S fuel' =>
      match skipSpace s with
      | EmptyString => None
      | String c rest =>
          if code c =? 34 then
            match unquote (S (String.length rest)) rest with
            | None => None
            | Some (key, r1) =>
                match skipSpace r1 with
                | EmptyString => None
                | String c2 r2 =>
                    if code c2 =? 58 then
                      match parseValue fuel' depth r2 with
                      | None => None
                      | Some (v, r3) =>
                          match skipSpace r3 with
                          | EmptyString => None
                          | String c3 r4 =>
                              if code c3 =? 44 then
                                match parseMembers fuel' depth r4 with
                                | Some (ms, r5) => Some ((key, v) :: ms, r5)
                                | None => None
                                end
                              else if code c3 =? 125 then Some ([(key, v)], r4)
                              else None
                          end
                      end
                    else None
                end
            end
          else None
      end
  end
with parseElements (fuel : nat) (depth : N) (s : string)
  : option (list value * string) :=
  match fuel with
  | O => None
  | S fuel' =>
      match parseValue fuel' depth s with
      | None => None
      | Some (v, r1) =>
          match skipSpace r1 with
          | EmptyString => None
          | String c r2 =>
              if code c =? 44 then
                match parseElements fuel' depth r2 with
                | Some (vs, r3) => Some (v :: vs, r3)
                | None => None
                end
              else if code c =? 93 then Some ([v], r2)
              else None
          end
      end
  end.

(** One JSON value, surrounded by optional JSON white space, and nothing
    else. *)
Definition parse (s : string) : option value :=
  match parseValue (2 * String.length s + 2) 0 s with
  | Some (v, rest) =>
      match skipSpace rest with
      | EmptyString => Some v
      | String _ _ => None
      end
  | None => None
  end.

Local Close Scope N_scope.

(** *** Decoding into [domain.IncidentAnalysis]

    The struct has two exported string fields, tagged [severity] and
    [category]. *)

Inductive field : Type := FSeverity | FCategory.

Definition fieldName (f : field) : string :=
  match f with
  | FSeverity => "severity"
  | FCategory => "category"
  end.

Definition upper (c : ascii) : ascii :=
  if inRange 97 122 c then ascii_of_N (code c - 32) else c.

(** The case folding under which object keys are compared with field
    names.  ASCII letters go to upper case; the two runes outside ASCII
    whose fold class holds an ASCII letter, U+017F (long s) and U+212A
    (Kelvin sign), go to [S] and [K].  No other rune folds into ASCII, and
    the field names are ASCII, so all other bytes are left as they are. *)
Fixpoint foldName (s : string) : string :=
  match s with
  | EmptyString => EmptyString
  | String a rest =>
      match rest with
      | EmptyString => String (upper a) EmptyString
      | String b rest2 =>
          if ((code a =? 197) && (code b =? 191))%N
          then String "S"%char (foldName rest2)
          else
            match rest2 with
            | EmptyString => String (upper a) (foldName rest)
            | String c rest3 =>
                if ((code a =? 226) && (code b =? 132) && (code c =? 170))%N
                then String "K"%char (foldName rest3)
                else String (upper a) (foldName rest)
            end
      end
  end.

(** The field an object key designates: the exact name first, otherwise
    the name equal under case folding. *)
Definition fieldFor (key : string) : option field :=
  if String.eqb key "severity" then Some FSeverity
  else if String.eqb key "category" then Some FCategory
  else if String.eqb (foldName key) "SEVERITY" then Some FSeverity
  else if String.eqb (foldName key) "CATEGORY" then Some FCategory
  else None.

Definition store (f : field) (s : string) (a : IncidentAnalysis)
  : IncidentAnalysis :=
  match f with
  | FSeverity => {| Severity := s; Category := Category a |}
  | FCategory => {| Severity := Severity a; Category := s |}
  end.

Definition kind (v : value) : string :=
  match v with
  | Null => "null"
  | Bool _ => "bool"
  | Number _ => "number"
  | Str _ => "string"
  | Array _ => "array"
  | Object _ => "object"
  end.

Definition SyntaxError : error := errorString "json: syntax error".

(** [*json.UnmarshalTypeError] for a member that a string field cannot hold *)
Definition FieldTypeError (v : value) (f : field) : error :=
  errorString ("json: cannot unmarshal " +:+ kind v +:+
               " into Go struct field IncidentAnalysis." +:+ fieldName f +:+
               " of type string").

(** [*json.UnmarshalTypeError] for a text that is not an object *)
Definition ValueTypeError (v : value) : error :=
  errorString ("json: cannot unmarshal " +:+ kind v +:+
               " into Go value of type domain.IncidentAnalysis").

(** Only the first type error of a decoding is kept. *)
Definition saveError (saved : option error) (e : error) : option error :=
  match saved with
  | Some _ => saved
  | None => Some e
  end.

(** The members of an object are stored in order, so the last of several
    members for one field wins.  A key that designates no field is
    skipped; [null] leaves the field as it is; a value that is not a
    string is a type error, after which decoding goes on. *)
Fixpoint object (ms : list (string * value)) (a : IncidentAnalysis)
  (saved : option error) : IncidentAnalysis * option error :=
  match ms with
  | [] => (a, saved)
  | (key, v) :: ms' =>
      match fieldFor key with
      | None => object ms' a saved
      | Some f =>
          match v with
          | Str s => object ms' (store f s a) saved
          | Null => object ms' a saved
          | _ => object ms' a (saveError saved (FieldTypeError v f))
          end
      end
  end.

(** [json.Unmarshal(data, &a)]: what [a] holds afterwards, and the error. *)
Definition Unmarshal (data : string) (a : IncidentAnalysis)
  : IncidentAnalysis * option error :=
  match parse data with
  | None => (a, Some SyntaxError)
  | Some Null => (a, None)
  | Some (Object ms) => object ms a None
  | Some v => (a, Some (ValueTypeError v))
  end.

End json.

(** ** Package [os]: the process environment *)

Module os.

(** [os.Getenv]: the value of the variable, empty when it is not set. *)
Definition Getenv (environ : gmap string string) (key : string) : string :=
  default EmptyString (environ !! key).

End os.

(** ** Package [go-openai]: the remote completion service *)

Module openai.

Record Client : Type := { authToken : string }.

Definition NewClient (authToken : string) : Client :=
  {| authToken := authToken |}.

Record ChatCompletionMessage : Type := {
  Role : string;
  Content : string
}.

(** [Temperature] holds the decimal literal of the source as a fraction. *)
Record ChatCompletionRequest : Type := {
  Model : string;
  Messages : list ChatCompletionMessage;
  Temperature : Q
}.

Record ChatCompletionChoice : Type := { Message : ChatCompletionMessage }.

Record ChatCompletionResponse : Type := {
  Choices : list ChatCompletionChoice
}.

Definition GPT3Dot5Turbo : string := "gpt-3.5-turbo".
Definition ChatMessageRoleSystem : string := "system".
Definition ChatMessageRoleUser : string := "user".

(** The round trip to the service; what comes back is up to the world. *)
Class API (W : Type) : Type := {
  CreateChatCompletion :
    Client -> ChatCompletionRequest -> M W (Result ChatCompletionResponse)
}.

End openai.

(** ** Package [service] *)

Module service.

Import openai.

Record OpenAIService : Type := { client : openai.Client }.

Definition NewOpenAIService (environ : gmap string string)
  : Outcome OpenAIService :=
  let apiKey := os.Getenv environ "OPENAI_API_KEY" in
  if String.eqb apiKey "" then
    Panicked "OPENAI_API_KEY environment variable is required"
  else
    let client := openai.NewClient apiKey in
    Returned {| client := client |}.

Fixpoint contains (slice : list string) (item : string) : bool :=
  match slice with
  | [] => false
  | s :: slice' => if String.eqb s item then true else contains slice' item
  end.

Definition prompt (title description affectedService : string) : string :=
    "
Analyze the following IT incident and provide:
1. Severity level (Low, Medium, High, Critical)
2. Category (Network, Software, Hardware, Security, Database, Application, Infrastructure)

Incident Details:
- Title: " +:+ title +:+ "
- Description: " +:+ description +:+ "
- Affected Service: " +:+ affectedService +:+ dq "

Please respond with only a JSON object in this exact format:
{
  'severity': 'Low|Medium|High|Critical',
  'category': 'Network|Software|Hardware|Security|Database|Application|Infrastructure'
}
".

Definition systemMessage : string :=
  "You are an IT incident triage assistant. Analyze incidents and provide severity and category classifications. Respond only with valid JSON.".

(** The [openai.ChatCompletionRequest] literal of [AnalyzeIncident]. *)
Definition chatRequest (prompt : string) : ChatCompletionRequest :=
  {| Model := GPT3Dot5Turbo;
     Messages :=
       [ {| Role := ChatMessageRoleSystem; Content := systemMessage |};
         {| Role := ChatMessageRoleUser; Content := prompt |} ];
     Temperature := 1 # 10 |}.

Definition validSeverities : list string :=
  ["Low"; "Medium"; "High"; "Critical"].

Definition validCategories : list string :=
  ["Network"; "Software"; "Hardware"; "Security"; "Database"; "Application";
   "Infrastructure"].

Section AnalyzeIncident.
Context {W : Type} `{!openai.API W}.

Definition AnalyzeIncident (s : OpenAIService)
  (title description affectedService : string)
  : M W (Result IncidentAnalysis) :=
  let prompt := prompt title description affectedService in
  let* r := CreateChatCompletion (client s) (chatRequest prompt) in
  match r with
  | Err err => ret (Err (Errorf_w "failed to get AI analysis: " err))
  | Ok resp =>
      match Choices resp with
      | [] => ret (Err (errorString "no response from AI service"))
      | choice :: _ =>
          let content := strings.TrimSpace (Content (Message choice)) in
          let (analysis, err) :=
            json.Unmarshal content
              {| Severity := EmptyString; Category := EmptyString |} in
          match err with
          | Some err =>
              ret (Err (Errorf_w "failed to parse AI response: " err))
          | None =>
              let analysis :=
                if negb (contains validSeverities (Severity analysis))
                then {| Severity := "Medium";
                        Category := Category analysis |}
                else analysis in
              let analysis :=
                if negb (contains validCategories (Category analysis))
                then {| Severity := Severity analysis;
                        Category := "Software" |}
                else analysis in
              ret (Ok analysis)
          end
      end
  end.

End AnalyzeIncident.

(** [*OpenAIService] implements [domain.AIService]. *)
Definition AsAIService {W : Type} `{!openai.API W} (s : OpenAIService)
  : AIService W :=
  {| domain.AnalyzeIncident := AnalyzeIncident s |}.

End service.

(** ** Package [database/sql] over the [incidents] table

    The table of [migrations/001_create_incidents_table.up.sql] and the five
    statements the repository sends.  A statement first goes through the
    driver, which may refuse it with an error (connection lost, a value the
    schema rejects); a refused statement changes nothing.  Column values are
    kept as they were sent.  Every statement sent is appended to
    [executed]. *)

Module sql.

Record Row : Type := {
  id : Z;
  title : string;
  description : string;
  affected_service : string;
  ai_severity : string;
  ai_category : string;
  created_at : Time;
  updated_at : Time
}.

Inductive Stmt : Type :=
(** INSERT INTO incidents (title, description, affected_service, ai_severity,
    ai_category, created_at, updated_at) VALUES (?, ?, ?, ?, ?, ?, ?) *)
| Insert (title description affected_service ai_severity ai_category : string)
    (created_at updated_at : Time)
(** SELECT id, title, ..., updated_at FROM incidents WHERE id = ? *)
| SelectByID (id : Z)
(** SELECT id, title, ..., updated_at FROM incidents ORDER BY created_at DESC *)
| SelectAll
(** UPDATE incidents SET title = ?, description = ?, affected_service = ?,
    ai_severity = ?, ai_category = ?, updated_at = ? WHERE id = ? *)
| UpdateByID (title description affected_service ai_severity ai_category : string)
    (updated_at : Time) (id : Z)
(** DELETE FROM incidents WHERE id = ? *)
| DeleteByID (id : Z).

Record DB : Type := {
  table : list Row;
  auto_increment : Z;
  executed : list Stmt;
  driver : list Stmt -> Stmt -> option error
}.

(** What the server answers: the rows of a query, and the two counters of
    [sql.Result], each of which the driver hands out with an error slot. *)
Record Reply : Type := {
  rows : list Row;
  LastInsertId : Result Z;
  RowsAffected : Result Z
}.

#[global] Instance Row_eq_dec : EqDecision Row.
Proof. solve_decision. Defined.

Definition ErrNoRows : error := errorString "sql: no rows in result set".

(** [ORDER BY created_at DESC] *)
Definition created_at_desc (r1 r2 : Row) : Prop :=
  created_at r2 <= created_at r1.

#[global] Instance created_at_desc_dec (r1 r2 : Row)
  : Decision (created_at_desc r1 r2) :=
  Z_le_dec (created_at r2) (created_at r1).

(** One second, in the nanoseconds of [time.Time]. *)
Definition second : Z := 1000000000.

(** What a [TIMESTAMP] column keeps of an instant.  The migration declares
    [created_at] and [updated_at] as [TIMESTAMP] without a fractional part,
    so a row holds whole seconds: the server rounds the value it is sent to
    the nearest second, half a second upwards. *)
Definition TIMESTAMP (t : Time) : Time := (t + second / 2) / second * second.

(** The [SET] clause of the update applied to one row. *)
Definition assign (t d a sev cat : string) (u : Time) (r : Row) : Row :=
  {| id := id r; title := t; description := d; affected_service := a;
     ai_severity := sev; ai_category := cat;
     created_at := created_at r; updated_at := u |}.

Definition sent (s : Stmt) (db : DB) (t : list Row) (next : Z) : DB :=
  {| table := t; auto_increment := next;
     executed := executed db ++ [s]; driver := driver db |}.

(** One statement against the table.  The two time columns keep the
    [TIMESTAMP] of what they are sent.  The connection string does not ask
    for [clientFoundRows], so for an update the server counts the rows it
    changed, not the rows the [WHERE] clause found. *)
Definition run (s : Stmt) : M DB (Result Reply) := fun db =>
  match driver db (executed db) s with
  | Some err => (Err err, sent s db (table db) (auto_increment db))
  | None =>
      match s with
      | Insert t d a sev cat c u =>
          let new := auto_increment db in
          let row :=
            {| id := new; title := t; description := d; affected_service := a;
               ai_severity := sev; ai_category := cat;
               created_at := TIMESTAMP c; updated_at := TIMESTAMP u |} in
          (Ok {| rows := []; LastInsertId := Ok new; RowsAffected := Ok 1 |},
           sent s db (table db ++ [row]) (new + 1))
      | SelectByID i =>
          (Ok {| rows := filter (fun r => id r = i) (table db);
                 LastInsertId := Ok 0; RowsAffected := Ok 0 |},
           sent s db (table db) (auto_increment db))
      | SelectAll =>
          (Ok {| rows := merge_sort created_at_desc (table db);
                 LastInsertId := Ok 0; RowsAffected := Ok 0 |},
           sent s db (table db) (auto_increment db))
      | UpdateByID t d a sev cat u i =>
          let set := assign t d a sev cat (TIMESTAMP u) in
          let hit r := id r = i /\ set r <> r in
          let change r := if decide (id r = i) then set r else r in
          let changed := Z.of_nat (length (filter hit (table db))) in
          (Ok {| rows := []; LastInsertId := Ok 0; RowsAffected := Ok changed |},
           sent s db (map change (table db)) (auto_increment db))
      | DeleteByID i =>
          let hit r := id r = i in
          let deleted := Z.of_nat (length (filter hit (table db))) in
          (Ok {| rows := []; LastInsertId := Ok 0; RowsAffected := Ok deleted |},
           sent s db (filter (fun r => id r <> i) (table db))
             (auto_increment db))
      end
  end.

(** [db.Exec(query, args...)] *)
Definition Exec (s : Stmt) : M DB (Result Reply) := run s.

(** [db.Query(query)] followed by the [rows.Next()] loop.  The rows of an
    answered query arrive whole: [rows.Scan] and [rows.Err] do not fail. *)
Definition Query (s : Stmt) : M DB (Result (list Row)) :=
  let* r := run s in
  match r with
  | Err err => ret (Err err)
  | Ok reply => ret (Ok (rows reply))
  end.

(** [db.QueryRow(query, args...)]: the first row, or [sql.ErrNoRows] *)
Definition QueryRow (s : Stmt) : M DB (Result Row) :=
  let* r := run s in
  match r with
  | Err err => ret (Err err)
  | Ok reply =>
      match rows reply with
      | [] => ret (Err ErrNoRows)
      | row :: _ => ret (Ok row)
      end
  end.

(** [Scan(&incident.ID, &incident.Title, ...)] *)
Definition Scan (r : Row) : Incident :=
  {| ID := id r; Title := title r; Description := description r;
     AffectedService := affected_service r; AISeverity := ai_severity r;
     AICategory := ai_category r; CreatedAt := created_at r;
     UpdatedAt := updated_at r |}.

End sql.

(** ** Package [repository] *)

Module repository.

Import sql.

Definition notFound (id : Z) : error :=
  Errorf_d "incident not found with id " id.

Definition Create (incident : Incident) : M DB (Incident * option error) :=
  let* r := Exec (Insert (Title incident) (Description incident)
                    (AffectedService incident) (AISeverity incident)
                    (AICategory incident) (CreatedAt incident)
                    (UpdatedAt incident)) in
  match r with
  | Err err => ret (incident, Some (Errorf_w "failed to create incident: " err))
  | Ok result =>
      match LastInsertId result with
      | Err err =>
          ret (incident, Some (Errorf_w "failed to get last insert id: " err))
      | Ok id =>
          ret ({| ID := id; Title := Title incident;
                  Description := Description incident;
                  AffectedService := AffectedService incident;
                  AISeverity := AISeverity incident;
                  AICategory := AICategory incident;
                  CreatedAt := CreatedAt incident;
                  UpdatedAt := UpdatedAt incident |}, None)
      end
  end.

Definition GetByID (id : Z) : M DB (Result Incident) :=
  let* r := QueryRow (SelectByID id) in
  match r with
  | Err err =>
      if decide (err = ErrNoRows) then ret (Err (notFound id))
      else ret (Err (Errorf_w "failed to get incident: " err))
  | Ok row => ret (Ok (Scan row))
  end.

Definition GetAll : M DB (Result (list Incident)) :=
  let* r := Query SelectAll in
  match r with
  | Err err => ret (Err (Errorf_w "failed to query incidents: " err))
  | Ok rows => ret (Ok (map Scan rows))
  end.

Definition Update (incident : Incident) : M DB (Incident * option error) :=
  let* r := Exec (UpdateByID (Title incident) (Description incident)
                    (AffectedService incident) (AISeverity incident)
                    (AICategory incident) (UpdatedAt incident)
                    (ID incident)) in
  match r with
  | Err err => ret (incident, Some (Errorf_w "failed to update incident: " err))
  | Ok result =>
      match RowsAffected result with
      | Err err =>
          ret (incident, Some (Errorf_w "failed to get rows affected: " err))
      | Ok rowsAffected =>
          if decide (rowsAffected = 0) then
            ret (incident, Some (notFound (ID incident)))
          else ret (incident, None)
      end
  end.

Definition Delete (id : Z) : M DB (option error) :=
  let* r := Exec (DeleteByID id) in
  match r with
  | Err err => ret (Some (Errorf_w "failed to delete incident: " err))
  | Ok result =>
      match RowsAffected result with
      | Err err => ret (Some (Errorf_w "failed to get rows affected: " err))
      | Ok rowsAffected =>
          if decide (rowsAffected = 0) then ret (Some (notFound id))
          else ret None
      end
  end.

(** [*MySQLIncidentRepository] implements [domain.IncidentRepository]. *)
#[global] Instance MySQLIncidentRepository : IncidentRepository DB :=
  {| domain.Create := Create;
     domain.GetByID := GetByID;
     domain.GetAll := GetAll;
     domain.Update := Update;
     domain.Delete := Delete |}.

End repository.

(** ** Package [usecase] *)

Module usecase.

Section IncidentUseCase.
Context {W : Type}.
Context {incidentRepo : IncidentRepository W} {aiService : AIService W}.
Context {clock : Clock W}.

Definition CreateIncident (req : CreateIncidentRequest.t)
  : M W (Result Incident) :=
  let* r := AnalyzeIncident (CreateIncidentRequest.Title req)
              (CreateIncidentRequest.Description req)
              (CreateIncidentRequest.AffectedService req) in
  match r with
  | Err err => ret (Err err)
  | Ok analysis =>
      let* createdAt := Now in
      let* updatedAt := Now in
      let incident :=
        {| ID := 0;
           Title := CreateIncidentRequest.Title req;
           Description := CreateIncidentRequest.Description req;
           AffectedService := CreateIncidentRequest.AffectedService req;
           AISeverity := Severity analysis;
           AICategory := Category analysis;
           CreatedAt := createdAt;
           UpdatedAt := updatedAt |} in
      let* '(incident, err) := Create incident in
      match err with
      | Some err => ret (Err err)
      | None => ret (Ok incident)
      end
  end.

Definition GetIncident (id : Z) : M W (Result Incident) := GetByID id.

Definition GetAllIncidents : M W (Result (list Incident)) := GetAll.

Definition UpdateIncident (id : Z) (req : CreateIncidentRequest.t)
  : M W (Result Incident) :=
  let* r := GetByID id in
  match r with
  | Err err => ret (Err err)
  | Ok incident =>
      let* r := AnalyzeIncident (CreateIncidentRequest.Title req)
                  (CreateIncidentRequest.Description req)
                  (CreateIncidentRequest.AffectedService req) in
      match r with
      | Err err => ret (Err err)
      | Ok analysis =>
          let* now := Now in
          let incident :=
            {| ID := ID incident;
               Title := CreateIncidentRequest.Title req;
               Description := CreateIncidentRequest.Description req;
               AffectedService := CreateIncidentRequest.AffectedService req;
               AISeverity := Severity analysis;
               AICategory := Category analysis;
               CreatedAt := CreatedAt incident;
               UpdatedAt := now |} in
          let* '(incident, err) := Update incident in
          match err with
          | Some err => ret (Err err)
          | None => ret (Ok incident)
          end
      end
  end.

Definition DeleteIncident (id : Z) : M W (option error) := Delete id.

End IncidentUseCase.

End usecase.

(** ** The running service

    As wired in [main]: the use case over the MySQL repository and a
    classifier, in a world made of the database and of whatever lies outside
    the process (the completion service, the wall clock). *)

Record World (X : Type) : Type := { db : sql.DB; outside : X }.
Arguments db {X} w.
Arguments outside {X} w.

Definition onDB {X A : Type} (m : M sql.DB A) : M (World X) A := fun w =>
  let (a, d) := m (db w) in (a, {| db := d; outside := outside w |}).

Definition onOutside {X A : Type} (m : M X A) : M (World X) A := fun w =>
  let (a, x) := m (outside w) in (a, {| db := db w; outside := x |}).

#[global] Instance World_Repository {X : Type} : IncidentRepository (World X) :=
  {| Create incident := onDB (repository.Create incident);
     GetByID id := onDB (repository.GetByID id);
     GetAll := onDB repository.GetAll;
     Update incident := onDB (repository.Update incident);
     Delete id := onDB (repository.Delete id) |}.

Definition World_AIService {X : Type} (ai : AIService X)
  : AIService (World X) :=
  {| AnalyzeIncident title description affectedService :=
       onOutside (AnalyzeIncident title description affectedService) |}.

#[global] Instance World_Clock {X : Type} `{!Clock X} : Clock (World X) :=
  {| Now := onOutside Now |}.

(** A scripted outside for running the model: the completion service answers
    with the next entry of [completions] (and is unreachable once the script
    is used up), the clock advances by one at every reading. *)
Record Script : Type := {
  completions : list (Result openai.ChatCompletionResponse);
  wall : Time
}.

#[global] Instance Script_API : openai.API Script :=
  {| openai.CreateChatCompletion _ _ := fun x =>
       match completions x with
       | [] => (Err (errorString "connection refused"), x)
       | r :: rs => (r, {| completions := rs; wall := wall x |})
       end |}.

#[global] Instance Script_Clock : Clock Script :=
  {| Now := fun x =>
       (wall x, {| completions := completions x; wall := wall x + 1 |}) |}.

(** A completion whose only choice carries [content]. *)
Definition completion (content : string) : openai.ChatCompletionResponse :=
  {| openai.Choices :=
       [ {| openai.Message :=
              {| openai.Role := "assistant"; openai.Content := content |} |} ] |}.

(** ** Package [net/http]: the status codes the handlers use *)

Module http.

Definition StatusOK : Z := 200.
Definition StatusCreated : Z := 201.
Definition StatusBadRequest : Z := 400.
Definition StatusNotFound : Z := 404.
Definition StatusInternalServerError : Z := 500.

End http.

(** ** Package [strconv]: [Atoi] *)

Module strconv.

Inductive NumError : Type := ErrSyntax | ErrRange.

Definition maxUint64 : Z := 18446744073709551615.

(** The digit loop of [ParseUint] in base ten with 64 bits: a byte that is
    not a decimal digit is a syntax error, a value past [maxUint64] a range
    error, whichever comes first from the left. *)
Fixpoint parseDigits (s : string) (n : Z) : Z + NumError :=
  match s with
  | EmptyString => inl n
  | String c rest =>
      if json.isDigit c then
        if maxUint64 / 10 + 1 <=? n then inr ErrRange
        else
          let n1 := n * 10 + (Z.of_N (strings.code c) - 48) in
          if maxUint64 <? n1 then inr ErrRange else parseDigits rest n1
      else inr ErrSyntax
  end.

Definition ParseUint (s : string) : Z + NumError :=
  match s with
  | EmptyString => inr ErrSyntax
  | String _ _ => parseDigits s 0
  end.

(** [strconv.Atoi] on a 64-bit platform: an optional sign, then decimal
    digits, and a value that fits an [int]. *)
Definition Atoi (s : string) : Z + NumError :=
  match s with
  | EmptyString => inr ErrSyntax
  | String c rest =>
      let neg := Ascii.eqb c "-" in
      let digits := if Ascii.eqb c "+" || neg then rest else s in
      match ParseUint digits with
      | inr ErrSyntax => inr ErrSyntax
      | inr ErrRange => inr ErrRange
      | inl un =>
          let cutoff := 9223372036854775808 in
          if negb neg && (cutoff <=? un) then inr ErrRange
          else if neg && (cutoff <? un) then inr ErrRange
          else inl (if neg then - un else un)
      end
  end.

End strconv.

(** ** Package [handler]

    What the web framework hands to a handler is the value of the path
    parameters and the outcome of binding the request body to a
    [CreateIncidentRequest]; what a handler gives back is either the JSON
    answer it wrote or the [*echo.HTTPError] it returned. *)

Module handler.

Record Context : Type := {
  params : gmap string string;
  bound : Result CreateIncidentRequest.t
}.

(** [c.Param(name)]: empty when the route has no such parameter. *)
Definition Param (c : Context) (name : string) : string :=
  default EmptyString (params c !! name).

(** A value of the maps the handlers answer with. *)
Inductive Payload : Type :=
| Text (s : string)
| Int (n : Z)
| One (incident : Incident)
| Many (incidents : list Incident).

Inductive Body : Type :=
| Fields (fields : gmap string Payload)
| Whole (incident : Incident).

Inductive Response : Type :=
| JSON (code : Z) (body : Body)
| HTTPError (code : Z) (message : string).

Definition code (r : Response) : Z :=
  match r with
  | JSON code _ => code
  | HTTPError code _ => code
  end.

Section IncidentHandler.
Context {W : Type}.
Context {incidentRepo : IncidentRepository W} {aiService : AIService W}.
Context {clock : Clock W}.

(** The condition of the "Basic validation" of the two writing handlers. *)
Definition missingField (req : CreateIncidentRequest.t) : bool :=
  String.eqb (CreateIncidentRequest.Title req) ""
  || String.eqb (CreateIncidentRequest.Description req) ""
  || String.eqb (CreateIncidentRequest.AffectedService req) "".

Definition CreateIncident (c : Context) : M W Response :=
  match bound c with
  | Err _ => ret (HTTPError http.StatusBadRequest "Invalid request body")
  | Ok req =>
      if missingField req then
        ret (HTTPError http.StatusBadRequest
               "Title, description, and affected service are required")
      else
        let* r := usecase.CreateIncident req in
        match r with
        | Err err =>
            ret (HTTPError http.StatusInternalServerError
                   ("Failed to create incident: " +:+ Error err))
        | Ok incident =>
            ret (JSON http.StatusCreated
                   (Fields {[ "message" := Text "Incident created successfully";
                              "incident" := One incident ]}))
        end
  end.

Definition GetIncident (c : Context) : M W Response :=
  let idStr := Param c "id" in
  match strconv.Atoi idStr with
  | inr _ => ret (HTTPError http.StatusBadRequest "Invalid incident ID")
  | inl id =>
      let* r := usecase.GetIncident id in
      match r with
      | Err _ => ret (HTTPError http.StatusNotFound "Incident not found")
      | Ok incident => ret (JSON http.StatusOK (Whole incident))
      end
  end.

Definition GetAllIncidents (c : Context) : M W Response :=
  let* r := usecase.GetAllIncidents in
  match r with
  | Err err =>
      ret (HTTPError http.StatusInternalServerError
             ("Failed to retrieve incidents: " +:+ Error err))
  | Ok incidents =>
      ret (JSON http.StatusOK
             (Fields {[ "incidents" := Many incidents;
                        "count" := Int (Z.of_nat (length incidents)) ]}))
  end.

Definition UpdateIncident (c : Context) : M W Response :=
  let idStr := Param c "id" in
  match strconv.Atoi idStr with
  | inr _ => ret (HTTPError http.StatusBadRequest "Invalid incident ID")
  | inl id =>
      match bound c with
      | Err _ => ret (HTTPError http.StatusBadRequest "Invalid request body")
      | Ok req =>
          if missingField req then
            ret (HTTPError http.StatusBadRequest
                   "Title, description, and affected service are required")
          else
            let* r := usecase.UpdateIncident id req in
            match r with
            | Err err =>
                ret (HTTPError http.StatusInternalServerError
                       ("Failed to update incident: " +:+ Error err))
            | Ok incident =>
                ret (JSON http.StatusOK
                       (Fields {[ "message" := Text "Incident updated successfully";
                                  "incident" := One incident ]}))
            end
      end
  end.

Definition DeleteIncident (c : Context) : M W Response :=
  let idStr := Param c "id" in
  match strconv.Atoi idStr with
  | inr _ => ret (HTTPError http.StatusBadRequest "Invalid incident ID")
  | inl id =>
      let* err := usecase.DeleteIncident id in
      match err with
      | Some err =>
          ret (HTTPError http.StatusInternalServerError
                 ("Failed to delete incident: " +:+ Error err))
      | None =>
          ret (JSON http.StatusOK
                 (Fields {[ "message" := Text "Incident deleted successfully" ]}))
      end
  end.

Definition HealthCheck (c : Context) : M W Response :=
  ret (JSON http.StatusOK (Fields {[ "status" := Text "healthy" ]})).

End IncidentHandler.

End handler.

(** ** Package [config] *)

Module config.

Record DatabaseConfig : Type := {
  Host : string;
  Port : string;
  User : string;
  Password : string;
  DBName : string
}.

Definition getEnv (environ : gmap string string) (key fallback : string)
  : string :=
  let value := os.Getenv environ key in
  if negb (String.eqb value "") then value else fallback.

Definition NewDatabaseConfig (environ : gmap string string) : DatabaseConfig :=
  {| Host := getEnv environ "DB_HOST" "localhost";
     Port := getEnv environ "DB_PORT" "3306";
     User := getEnv environ "DB_USER" "root";
     Password := getEnv environ "DB_PASSWORD" "password";
     DBName := getEnv environ "DB_NAME" "incident_triage" |}.

(** [sql.Open], [db.Ping] and [log.Println], over handles of type [H]. *)
Class Server (W H : Type) : Type := {
  Open : string -> string -> M W (Result H);
  Ping : H -> M W (option error);
  Println : string -> M W ()
}.

(** The data source name that [Connect] formats. *)
Definition dsn (c : DatabaseConfig) : string :=
  User c +:+ ":" +:+ Password c +:+ "@tcp(" +:+ Host c +:+ ":" +:+ Port c
  +:+ ")/" +:+ DBName c +:+ "?parseTime=true&multiStatements=true".

Definition Connect {W H : Type} `{!Server W H} (c : DatabaseConfig)
  : M W (Result H) :=
  let dsn := dsn c in
  let* r := Open "mysql" dsn in
  match r with
  | Err err => ret (Err (Errorf_w "failed to open database connection: " err))
  | Ok db =>
      let* err := Ping db in
      match err with
      | Some err => ret (Err (Errorf_w "failed to ping database: " err))
      | None =>
          let* _ := Println "Successfully connected to MySQL database" in
          ret (Ok db)
      end
  end.

End config.

(** ** Vocabulary of the properties *)

(** The completion service answers the classification request for an
    incident, and its first choice carries [content]. *)
Definition answers {W : Type} `{!openai.API W} (s : service.OpenAIService)
  (title description affectedService : string) (w : W) (content : string)
  (w' : W) : Prop :=
  exists resp choice rest,
    openai.CreateChatCompletion (service.client s)
      (service.chatRequest (service.prompt title description affectedService)) w
    = (Ok resp, w') /\
    openai.Choices resp = choice :: rest /\
    openai.Content (openai.Message choice) = content.

(** The zero [domain.IncidentAnalysis] that [AnalyzeIncident] decodes into. *)
Definition blank : IncidentAnalysis :=
  {| Severity := EmptyString; Category := EmptyString |}.

#[global] Instance field_eq_dec : EqDecision json.field.
Proof. solve_decision. Defined.

Definition fieldOf (f : json.field) (a : IncidentAnalysis) : string :=
  match f with
  | json.FSeverity => Severity a
  | json.FCategory => Category a
  end.

(** A member value that a string field takes without a type error. *)
Definition storable (v : json.value) : bool :=
  match v with
  | json.Str _ | json.Null => true
  | _ => false
  end.

(** No member of the object designates field [f]. *)
Definition omits (f : json.field) (ms : list (string * json.value)) : bool :=
  forallb (fun m => negb (bool_decide (json.fieldFor (fst m) = Some f))) ms.

(** Every member that designates a field has a storable value. *)
Definition well_typed (ms : list (string * json.value)) : bool :=
  forallb (fun m => match json.fieldFor (fst m) with
                    | Some _ => storable (snd m)
                    | None => true
                    end) ms.

(** The texts on which [json.Unmarshal] reports an error: malformed JSON, a
    value that is neither an object nor [null], or an object that gives a
    field a value that is neither a string nor [null]. *)
Definition parse_failure (data : string) : bool :=
  match json.parse data with
  | None => true
  | Some json.Null => false
  | Some (json.Object ms) => negb (well_typed ms)
  | Some _ => true
  end.

(** The parse failures as the specification lists them: malformed JSON,
    missing fields, or wrong types. *)
Definition spec_parse_failure (data : string) : bool :=
  match json.parse data with
  | None => true
  | Some (json.Object ms) =>
      omits json.FSeverity ms || omits json.FCategory ms || negb (well_typed ms)
  | Some _ => true
  end.

(** The fallback of [AnalyzeIncident] on one decoded field. *)
Definition fallback (valid : list string) (default value : string) : string :=
  if decide (value ∈ valid) then value else default.

(** A statement that writes a classification carries a severity and a
    category of the two enumerations. *)
Definition classified (s : sql.Stmt) : Prop :=
  match s with
  | sql.Insert _ _ _ sev cat _ _ | sql.UpdateByID _ _ _ sev cat _ _ =>
      sev ∈ service.validSeverities /\ cat ∈ service.validCategories
  | _ => True
  end.

Definition row_classified (r : sql.Row) : Prop :=
  sql.ai_severity r ∈ service.validSeverities /\
  sql.ai_category r ∈ service.validCategories.

(** The row that [INSERT] makes of an incident, under identifier [i]: the
    texts as they are, the two times as the [TIMESTAMP] columns keep them. *)
Definition row_of (i : Z) (incident : Incident) : sql.Row :=
  {| sql.id := i; sql.title := Title incident;
     sql.description := Description incident;
     sql.affected_service := AffectedService incident;
     sql.ai_severity := AISeverity incident;
     sql.ai_category := AICategory incident;
     sql.created_at := sql.TIMESTAMP (CreatedAt incident);
     sql.updated_at := sql.TIMESTAMP (UpdatedAt incident) |}.

(** The incident as [Create] hands it back: the identifier written through
    the pointer, everything else as the caller built it. *)
Definition numbered (i : Z) (incident : Incident) : Incident :=
  {| ID := i; Title := Title incident; Description := Description incident;
     AffectedService := AffectedService incident;
     AISeverity := AISeverity incident; AICategory := AICategory incident;
     CreatedAt := CreatedAt incident; UpdatedAt := UpdatedAt incident |}.


(** Identifiers in the table were all handed out by the counter. *)
Definition ids_below_counter (d : sql.DB) : Prop :=
  Forall (fun r => sql.id r < sql.auto_increment d) (sql.table d).

(** [r] is a strictly shorter text than [s]. *)
Definition shorter (r s : string) : Prop :=
  (String.length r < String.length s)%nat.

(** Most recent first. *)
Definition newest_first (a b : Incident) : Prop := CreatedAt b <= CreatedAt a.

(** The incident that the use case builds from a request, a classification
    and the timestamps. *)
Definition incidentOf (req : CreateIncidentRequest.t) (id : Z)
  (analysis : IncidentAnalysis) (createdAt updatedAt : Time) : Incident :=
  {| ID := id;
     Title := CreateIncidentRequest.Title req;
     Description := CreateIncidentRequest.Description req;
     AffectedService := CreateIncidentRequest.AffectedService req;
     AISeverity := Severity analysis;
     AICategory := Category analysis;
     CreatedAt := createdAt;
     UpdatedAt := updatedAt |}.

(** ** Sample values *)

Definition sampleRequest : CreateIncidentRequest.t :=
  {| CreateIncidentRequest.Title := "T";
     CreateIncidentRequest.Description := "D";
     CreateIncidentRequest.AffectedService := "S" |}.

Definition testService : service.OpenAIService :=
  {| service.client := openai.NewClient "test-key" |}.

(** An outside whose completion service answers once, with [content]. *)
Definition scripted (content : string) (now : Time) : Script :=
  {| completions := [Ok (completion content)]; wall := now |}.

(** A freshly migrated database behind a driver that never fails. *)
Definition emptyDB : sql.DB :=
  {| sql.table := []; sql.auto_increment := 1; sql.executed := [];
     sql.driver := fun _ _ => None |}.

(** A table of three incidents, inserted in an order that is not the order
    of their creation times; [created] counts seconds. *)
Definition sampleRow (i : Z) (created : Z) : sql.Row :=
  {| sql.id := i; sql.title := "Disk full"; sql.description := "No space left";
     sql.affected_service := "Storage"; sql.ai_severity := "High";
     sql.ai_category := "Hardware"; sql.created_at := created * sql.second;
     sql.updated_at := created * sql.second |}.

Definition sampleDB : sql.DB :=
  {| sql.table := [sampleRow 1 20; sampleRow 2 10; sampleRow 3 30];
     sql.auto_increment := 4; sql.executed := [];
     sql.driver := fun _ _ => None |}.

(** A database whose driver refuses every statement. *)
Definition brokenDB : sql.DB :=
  {| sql.table := []; sql.auto_increment := 1; sql.executed := [];
     sql.driver := fun _ _ => Some (errorString "database error") |}.

(** The service of [main]: the use case over the MySQL repository and the
    OpenAI classifier, in a world with a scripted outside. *)
Definition createIncident (req : CreateIncidentRequest.t)
  : M (World Script) (Result Incident) :=
  usecase.CreateIncident
    (aiService := World_AIService (service.AsAIService testService)) req.

Definition updateIncident (id : Z) (req : CreateIncidentRequest.t)
  : M (World Script) (Result Incident) :=
  usecase.UpdateIncident
    (aiService := World_AIService (service.AsAIService testService)) id req.

(** The database after the statements [ss], sent one after the other. *)
Definition runAll (ss : list sql.Stmt) (d : sql.DB) : sql.DB :=
  foldl (fun d s => snd (sql.run s d)) d ss.

(** A call of one of the five methods of the repository, and the database
    after it. *)
Inductive Call : Type :=
| CallCreate (incident : Incident)
| CallGetByID (id : Z)
| CallGetAll
| CallUpdate (incident : Incident)
| CallDelete (id : Z).

Definition perform (c : Call) (d : sql.DB) : sql.DB :=
  match c with
  | CallCreate incident => snd (repository.Create incident d)
  | CallGetByID id => snd (repository.GetByID id d)
  | CallGetAll => snd (repository.GetAll d)
  | CallUpdate incident => snd (repository.Update incident d)
  | CallDelete id => snd (repository.Delete id d)
  end.

Definition performAll (cs : list Call) (d : sql.DB) : sql.DB :=
  foldl (fun d c => perform c d) d cs.


(** No two rows of the table share an identifier. *)
Definition distinct_ids (d : sql.DB) : Prop :=
  NoDup (map sql.id (sql.table d)).

(** A request on the route [/incidents/:id], with what binding its body
    gave. *)
Definition withID (id : string) (body : Result CreateIncidentRequest.t)
  : handler.Context :=
  {| handler.params := {[ "id" := id ]}; handler.bound := body |}.

(** * Properties *)

(** ** The classifier *)

Lemma contains_elem_of (slice : list string) (item : string) :
  service.contains slice item = true <-> item ∈ slice.
Proof.
  induction slice as [|s slice IH]; simpl.
  - split; [discriminate | intros H; inversion H].
  - destruct (String.eqb s item) eqn:E.
    + apply String.eqb_eq in E. subst. split; [intros _; left | reflexivity].
    + apply String.eqb_neq in E. rewrite IH. split.
      * intros H. now right.
      * intros H. inversion H; subst; [congruence | assumption].
Qed.

Lemma contains_fallback (valid : list string) (default value : string) :
  (if negb (service.contains valid value) then default else value)
  = fallback valid default value.
Proof.
  unfold fallback. destruct (service.contains valid value) eqn:E; simpl.
  - apply contains_elem_of in E. now rewrite decide_True.
  - rewrite decide_False; [reflexivity |].
    intros H. apply contains_elem_of in H. congruence.
Qed.

(** What [AnalyzeIncident] does once the text of the first choice has been
    decoded. *)
Lemma AnalyzeIncident_decoded {W : Type} `{!openai.API W}
  (s : service.OpenAIService) (title description affectedService : string)
  (w w' : W) (content : string) :
  answers s title description affectedService w content w' ->
  service.AnalyzeIncident s title description affectedService w =
  match json.Unmarshal (strings.TrimSpace content) blank with
  | (_, Some err) => (Err (Errorf_w "failed to parse AI response: " err), w')
  | (a, None) =>
      (Ok {| Severity := fallback service.validSeverities "Medium" (Severity a);
             Category := fallback service.validCategories "Software" (Category a) |},
       w')
  end.
Proof.
  intros (resp & choice & rest & Hcall & Hchoices & Hcontent).
  unfold service.AnalyzeIncident, bind. rewrite Hcall, Hchoices, Hcontent.
  fold blank. destruct (json.Unmarshal _ blank) as [a [err|]]; [reflexivity |].
  unfold ret. do 2 f_equal.
  rewrite <- !contains_fallback.
  destruct a as [sev cat]; cbn [Severity Category].
  destruct (service.contains service.validSeverities sev);
    cbn [negb Severity Category];
    destruct (service.contains service.validCategories cat); reflexivity.
Qed.

(** C1.  Once the text of the first choice has been decoded, the fallback
    acts on each field by itself: a severity outside the four severities
    becomes [Medium], a category outside the seven categories becomes
    [Software], and a field that is in its enumeration is returned as
    decoded, whatever the other field is. *)
Theorem AnalyzeIncident_fallback_per_field {W : Type} `{!openai.API W}
  (s : service.OpenAIService) (title description affectedService : string)
  (w w' : W) (content : string) (a : IncidentAnalysis) :
  answers s title description affectedService w content w' ->
  json.Unmarshal (strings.TrimSpace content) blank = (a, None) ->
  exists r,
    service.AnalyzeIncident s title description affectedService w = (Ok r, w') /\
    (Severity a ∉ service.validSeverities -> Severity r = "Medium") /\
    (Severity a ∈ service.validSeverities -> Severity r = Severity a) /\
    (Category a ∉ service.validCategories -> Category r = "Software") /\
    (Category a ∈ service.validCategories -> Category r = Category a).
Proof.
  intros Hans Hdec. eexists. split.
  - rewrite (AnalyzeIncident_decoded _ _ _ _ _ _ _ Hans), Hdec. reflexivity.
  - cbn [Severity Category]. unfold fallback.
    repeat split; intros Hv; case_decide; tauto.
Qed.

Lemma AnalyzeIncident_fallback_per_field_witness :
  exists r,
    service.AnalyzeIncident testService "Minor issue" "Small bug" "UI Service"
      (scripted (dq "{'severity': 'Invalid', 'category': 'Database'}") 0)
    = (Ok r, {| completions := []; wall := 0 |}) /\
    Severity r = "Medium" /\ Category r = "Database".
Proof.
  destruct (AnalyzeIncident_fallback_per_field (W := Script) testService
              "Minor issue" "Small bug" "UI Service"
              (scripted (dq "{'severity': 'Invalid', 'category': 'Database'}") 0)
              {| completions := []; wall := 0 |}
              (dq "{'severity': 'Invalid', 'category': 'Database'}")
              {| Severity := "Invalid"; Category := "Database" |})
    as (r & Hr & Hs & _ & _ & Hc).
  - eexists _, _, _. repeat split.
  - vm_compute. reflexivity.
  - exists r. split; [exact Hr |]. split.
    + apply Hs. apply (bool_decide_unpack _). vm_compute. exact I.
    + apply Hc. apply (bool_decide_unpack _). vm_compute. exact I.
Defined.

(** *** Decoding an object *)

Lemma object_saved (ms : list (string * json.value)) (a : IncidentAnalysis)
  (e : error) :
  snd (json.object ms a (Some e)) = Some e.
Proof.
  revert a. induction ms as [|[key v] ms IH]; intros a; simpl; [reflexivity |].
  destruct (json.fieldFor key); [| apply IH].
  destruct v; apply IH.
Qed.

Lemma object_no_error (ms : list (string * json.value)) (a : IncidentAnalysis) :
  snd (json.object ms a None) = None <-> well_typed ms = true.
Proof.
  revert a. induction ms as [|[key v] ms IH]; intros a; simpl; [tauto |].
  destruct (json.fieldFor key) as [f|]; simpl; [| apply IH].
  destruct v; simpl; try apply IH;
    rewrite object_saved; split; discriminate.
Qed.

Lemma object_omits (f : json.field) (ms : list (string * json.value))
  (a : IncidentAnalysis) (saved : option error) :
  omits f ms = true ->
  fieldOf f (fst (json.object ms a saved)) = fieldOf f a.
Proof.
  revert a saved. induction ms as [|[key v] ms IH]; intros a saved;
    simpl; [reflexivity |].
  intros H. apply andb_prop in H as [Hkey Hms].
  destruct (json.fieldFor key) as [g|] eqn:Hg; [| now apply IH].
  assert (g <> f) as Hgf.
  { intros ->. now rewrite bool_decide_eq_true_2 in Hkey. }
  destruct v; rewrite IH by assumption; try reflexivity.
  destruct g, f; try congruence; reflexivity.
Qed.

(** [json.Unmarshal] reports an error exactly on the texts of
    [parse_failure]. *)
Lemma Unmarshal_error (data : string) :
  (parse_failure data = true ->
   exists reason, snd (json.Unmarshal data blank) = Some reason) /\
  (parse_failure data = false -> snd (json.Unmarshal data blank) = None).
Proof.
  unfold parse_failure, json.Unmarshal.
  destruct (json.parse data) as [v|]; [| split; [eauto | discriminate]].
  destruct v; simpl; try (split; [eauto | discriminate]).
  - split; [discriminate | reflexivity].
  - destruct (well_typed members) eqn:Hwt; simpl.
    + split; [discriminate |]. intros _. now apply object_no_error.
    + split; [| discriminate]. intros _.
      destruct (snd (json.object members blank None)) as [e|] eqn:E; [eauto |].
      apply object_no_error in E. congruence.
Qed.

(** C2, as the code has it.  When the completion service has answered and
    the text of its first choice is malformed JSON, is neither an object nor
    [null], or gives [severity] or [category] a value that is neither a
    string nor [null], [AnalyzeIncident] returns the error of [json.Unmarshal]
    wrapped as [failed to parse AI response: ...] and no analysis, so no
    default is substituted.  On every other text it returns an analysis: an
    object that leaves a field out is not a parse failure. *)
Theorem AnalyzeIncident_parse_failure {W : Type} `{!openai.API W}
  (s : service.OpenAIService) (title description affectedService : string)
  (w w' : W) (content : string) :
  answers s title description affectedService w content w' ->
  (parse_failure (strings.TrimSpace content) = true ->
   exists reason,
     snd (json.Unmarshal (strings.TrimSpace content) blank) = Some reason /\
     service.AnalyzeIncident s title description affectedService w =
     (Err (wrapError ("failed to parse AI response: " +:+ Error reason) reason),
      w')) /\
  (parse_failure (strings.TrimSpace content) = false ->
   exists r,
     service.AnalyzeIncident s title description affectedService w = (Ok r, w')).
Proof.
  intros Hans. rewrite (AnalyzeIncident_decoded _ _ _ _ _ _ _ Hans).
  destruct (Unmarshal_error (strings.TrimSpace content)) as [Hfail Hfine].
  destruct (json.Unmarshal (strings.TrimSpace content) blank) as [a err].
  split; intros Hpf.
  - destruct (Hfail Hpf) as [reason Hreason]. simpl in Hreason. subst err.
    exists reason. split; reflexivity.
  - specialize (Hfine Hpf). simpl in Hfine. subst err. eauto.
Qed.

Lemma AnalyzeIncident_parse_failure_witness :
  exists reason,
    service.AnalyzeIncident testService "T" "D" "S"
      (scripted (dq "{'severity': 5, 'category': 'Database'}") 0)
    = (Err (wrapError ("failed to parse AI response: " +:+ Error reason) reason),
       {| completions := []; wall := 0 |}).
Proof.
  destruct (AnalyzeIncident_parse_failure (W := Script) testService "T" "D" "S"
              (scripted (dq "{'severity': 5, 'category': 'Database'}") 0)
              {| completions := []; wall := 0 |}
              (dq "{'severity': 5, 'category': 'Database'}"))
    as [Hfail _].
  - eexists _, _, _. repeat split.
  - destruct Hfail as (reason & _ & Hrun); [vm_compute; reflexivity |].
    exists reason. exact Hrun.
Defined.

(** C2 as the specification words it fails: the text [{}] misses both
    fields, which the specification counts as a parse failure, yet
    [AnalyzeIncident] returns the two defaults and no error. *)
Lemma AnalyzeIncident_missing_fields_no_error :
  spec_parse_failure (strings.TrimSpace (dq "{}")) = true /\
  service.AnalyzeIncident testService "T" "D" "S" (scripted (dq "{}") 0)
  = (Ok {| Severity := "Medium"; Category := "Software" |},
     {| completions := []; wall := 0 |}).
Proof. split; vm_compute; reflexivity. Qed.

(** C10.  When the text of the first choice is a JSON object whose members,
    where they designate a field, carry strings (or [null]),
    [AnalyzeIncident] returns an analysis and no error; a field that no
    member designates decodes as the empty string and comes out as its
    default, [Medium] for the severity and [Software] for the category. *)
Theorem AnalyzeIncident_omitted_fields {W : Type} `{!openai.API W}
  (s : service.OpenAIService) (title description affectedService : string)
  (w w' : W) (content : string) (ms : list (string * json.value)) :
  answers s title description affectedService w content w' ->
  json.parse (strings.TrimSpace content) = Some (json.Object ms) ->
  well_typed ms = true ->
  exists a r,
    json.Unmarshal (strings.TrimSpace content) blank = (a, None) /\
    service.AnalyzeIncident s title description affectedService w = (Ok r, w') /\
    (omits json.FSeverity ms = true ->
     Severity a = EmptyString /\ Severity r = "Medium") /\
    (omits json.FCategory ms = true ->
     Category a = EmptyString /\ Category r = "Software").
Proof.
  intros Hans Hparse Hwt.
  rewrite (AnalyzeIncident_decoded _ _ _ _ _ _ _ Hans).
  unfold json.Unmarshal. rewrite Hparse.
  destruct (json.object ms blank None) as [a err] eqn:Hobj.
  assert (err = None) as ->.
  { apply object_no_error with (a := blank) in Hwt. now rewrite Hobj in Hwt. }
  eexists a, _. split; [reflexivity |]. split; [reflexivity |].
  cbn [Severity Category]. split; intros Homit.
  - pose proof (object_omits json.FSeverity ms blank None Homit) as Hf.
    rewrite Hobj in Hf. simpl in Hf. rewrite Hf. split; reflexivity.
  - pose proof (object_omits json.FCategory ms blank None Homit) as Hf.
    rewrite Hobj in Hf. simpl in Hf. rewrite Hf. split; reflexivity.
Qed.

Lemma AnalyzeIncident_omitted_fields_witness :
  service.AnalyzeIncident testService "T" "D" "S" (scripted (dq "{}") 0)
  = (Ok {| Severity := "Medium"; Category := "Software" |},
     {| completions := []; wall := 0 |}).
Proof.
  destruct (AnalyzeIncident_omitted_fields (W := Script) testService "T" "D" "S"
              (scripted (dq "{}") 0) {| completions := []; wall := 0 |}
              (dq "{}") [])
    as (a & r & _ & Hrun & Hsev & Hcat).
  - eexists _, _, _. repeat split.
  - vm_compute. reflexivity.
  - reflexivity.
  - rewrite Hrun. destruct r as [sev cat].
    destruct (Hsev eq_refl) as [_ Hs]. destruct (Hcat eq_refl) as [_ Hc].
    simpl in Hs, Hc. now subst.
Defined.

(** ** The repository: each method in terms of the table *)

Lemma Create_run (incident : Incident) (d : sql.DB) :
  let s := sql.Insert (Title incident) (Description incident)
             (AffectedService incident) (AISeverity incident)
             (AICategory incident) (CreatedAt incident) (UpdatedAt incident) in
  repository.Create incident d =
  match sql.driver d (sql.executed d) s with
  | Some err =>
      ((incident, Some (Errorf_w "failed to create incident: " err)),
       sql.sent s d (sql.table d) (sql.auto_increment d))
  | None =>
      ((numbered (sql.auto_increment d) incident, None),
       sql.sent s d (sql.table d ++ [row_of (sql.auto_increment d) incident])
         (sql.auto_increment d + 1))
  end.
Proof.
  intros s. unfold repository.Create, sql.Exec, sql.run, bind. fold s.
  destruct (sql.driver d (sql.executed d) s); reflexivity.
Qed.

Lemma GetByID_run (id : Z) (d : sql.DB) :
  repository.GetByID id d =
  (match sql.driver d (sql.executed d) (sql.SelectByID id) with
   | Some err =>
       if decide (err = sql.ErrNoRows) then Err (repository.notFound id)
       else Err (Errorf_w "failed to get incident: " err)
   | None =>
       match filter (fun r => sql.id r = id) (sql.table d) with
       | [] => Err (repository.notFound id)
       | row :: _ => Ok (sql.Scan row)
       end
   end,
   sql.sent (sql.SelectByID id) d (sql.table d) (sql.auto_increment d)).
Proof.
  unfold repository.GetByID, sql.QueryRow, sql.run, bind.
  destruct (sql.driver d (sql.executed d) (sql.SelectByID id)) as [err|].
  - unfold ret. case_decide; reflexivity.
  - cbn [sql.rows].
    destruct (filter (fun r => sql.id r = id) (sql.table d)); [| reflexivity].
    unfold ret. now rewrite decide_True.
Qed.

Lemma GetAll_run (d : sql.DB) :
  repository.GetAll d =
  (match sql.driver d (sql.executed d) sql.SelectAll with
   | Some err => Err (Errorf_w "failed to query incidents: " err)
   | None => Ok (map sql.Scan (merge_sort sql.created_at_desc (sql.table d)))
   end,
   sql.sent sql.SelectAll d (sql.table d) (sql.auto_increment d)).
Proof.
  unfold repository.GetAll, sql.Query, sql.run, bind.
  destruct (sql.driver d (sql.executed d) sql.SelectAll); reflexivity.
Qed.

Lemma Update_run (incident : Incident) (d : sql.DB) :
  let s := sql.UpdateByID (Title incident) (Description incident)
             (AffectedService incident) (AISeverity incident)
             (AICategory incident) (UpdatedAt incident) (ID incident) in
  let set := sql.assign (Title incident) (Description incident)
               (AffectedService incident) (AISeverity incident)
               (AICategory incident) (sql.TIMESTAMP (UpdatedAt incident)) in
  repository.Update incident d =
  match sql.driver d (sql.executed d) s with
  | Some err =>
      ((incident, Some (Errorf_w "failed to update incident: " err)),
       sql.sent s d (sql.table d) (sql.auto_increment d))
  | None =>
      ((incident,
        if decide (Z.of_nat (length (filter
                     (fun r => sql.id r = ID incident /\ set r <> r)
                     (sql.table d))) = 0)
        then Some (repository.notFound (ID incident)) else None),
       sql.sent s d
         (map (fun r => if decide (sql.id r = ID incident) then set r else r)
            (sql.table d))
         (sql.auto_increment d))
  end.
Proof.
  intros s set. unfold repository.Update, sql.Exec, sql.run, bind. fold s.
  destruct (sql.driver d (sql.executed d) s); [reflexivity |].
  cbn [sql.RowsAffected]. fold set. unfold ret. case_decide; reflexivity.
Qed.

Lemma Delete_run (id : Z) (d : sql.DB) :
  repository.Delete id d =
  match sql.driver d (sql.executed d) (sql.DeleteByID id) with
  | Some err =>
      (Some (Errorf_w "failed to delete incident: " err),
       sql.sent (sql.DeleteByID id) d (sql.table d) (sql.auto_increment d))
  | None =>
      (if decide (Z.of_nat (length (filter (fun r => sql.id r = id)
                                      (sql.table d))) = 0)
       then Some (repository.notFound id) else None,
       sql.sent (sql.DeleteByID id) d
         (filter (fun r => sql.id r <> id) (sql.table d))
         (sql.auto_increment d))
  end.
Proof.
  unfold repository.Delete, sql.Exec, sql.run, bind.
  destruct (sql.driver d (sql.executed d) (sql.DeleteByID id)); [reflexivity |].
  cbn [sql.RowsAffected]. unfold ret. case_decide; reflexivity.
Qed.

(** ** The use case in the running service *)

Section Running.
Context {X : Type} (ai : AIService X) {clock : Clock X}.

Lemma CreateIncident_run (req : CreateIncidentRequest.t) (w : World X) :
  usecase.CreateIncident (aiService := World_AIService ai) req w =
  let (r, x1) := AnalyzeIncident (CreateIncidentRequest.Title req)
                   (CreateIncidentRequest.Description req)
                   (CreateIncidentRequest.AffectedService req) (outside w) in
  match r with
  | Err err => (Err err, {| db := db w; outside := x1 |})
  | Ok analysis =>
      let (createdAt, x2) := Now x1 in
      let (updatedAt, x3) := Now x2 in
      let (out, d) :=
        repository.Create (incidentOf req 0 analysis createdAt updatedAt) (db w) in
      (match snd out with
       | Some err => Err err
       | None => Ok (fst out)
       end, {| db := d; outside := x3 |})
  end.
Proof.
  unfold usecase.CreateIncident, bind.
  cbn [AnalyzeIncident World_AIService Now World_Clock Create World_Repository].
  unfold onOutside, onDB.
  destruct (AnalyzeIncident _ _ _ (outside w)) as [[analysis|err] x1];
    [| reflexivity].
  cbn [db outside].
  destruct (Now x1) as [createdAt x2]. cbn [db outside].
  destruct (Now x2) as [updatedAt x3]. cbn [db outside].
  fold (incidentOf req 0 analysis createdAt updatedAt).
  destruct (repository.Create _ (db w)) as [[incident [err|]] d]; reflexivity.
Qed.

Lemma UpdateIncident_run (id : Z) (req : CreateIncidentRequest.t) (w : World X) :
  usecase.UpdateIncident (aiService := World_AIService ai) id req w =
  let (r, d1) := repository.GetByID id (db w) in
  match r with
  | Err err => (Err err, {| db := d1; outside := outside w |})
  | Ok incident =>
      let (r, x1) := AnalyzeIncident (CreateIncidentRequest.Title req)
                       (CreateIncidentRequest.Description req)
                       (CreateIncidentRequest.AffectedService req) (outside w) in
      match r with
      | Err err => (Err err, {| db := d1; outside := x1 |})
      | Ok analysis =>
          let (now, x2) := Now x1 in
          let (out, d2) :=
            repository.Update
              (incidentOf req (ID incident) analysis (CreatedAt incident) now) d1 in
          (match snd out with
           | Some err => Err err
           | None => Ok (fst out)
           end, {| db := d2; outside := x2 |})
      end
  end.
Proof.
  unfold usecase.UpdateIncident, bind.
  cbn [AnalyzeIncident World_AIService Now World_Clock Update GetByID
       World_Repository].
  unfold onOutside, onDB.
  destruct (repository.GetByID id (db w)) as [[incident|err] d1];
    [| reflexivity].
  cbn [db outside].
  destruct (AnalyzeIncident _ _ _ (outside w)) as [[analysis|err] x1];
    [| reflexivity].
  cbn [db outside].
  destruct (Now x1) as [now x2]. cbn [db outside].
  fold (incidentOf req (ID incident) analysis (CreatedAt incident) now).
  destruct (repository.Update _ d1) as [[incident' [err|]] d2]; reflexivity.
Qed.

End Running.

(** C3.  When the classifier returns an error on the request,
    [CreateIncident] returns that error and leaves the database exactly as it
    was: no statement is sent, so the repository's [Create] was not called.
    [UpdateIncident] returns an error too; the only statement it sends is
    the [SELECT] of its initial fetch, never the [UPDATE], and the table and
    the identifier counter are unchanged. *)
Theorem classifier_error_writes_nothing {X : Type} (ai : AIService X)
  {clock : Clock X} (id : Z) (req : CreateIncidentRequest.t) (w : World X)
  (e : error) (x' : X) :
  AnalyzeIncident (CreateIncidentRequest.Title req)
    (CreateIncidentRequest.Description req)
    (CreateIncidentRequest.AffectedService req) (outside w) = (Err e, x') ->
  usecase.CreateIncident (aiService := World_AIService ai) req w
  = (Err e, {| db := db w; outside := x' |}) /\
  exists e' w',
    usecase.UpdateIncident (aiService := World_AIService ai) id req w
    = (Err e', w') /\
    sql.table (db w') = sql.table (db w) /\
    sql.auto_increment (db w') = sql.auto_increment (db w) /\
    sql.executed (db w') = sql.executed (db w) ++ [sql.SelectByID id] /\
    (forall incident, fst (repository.GetByID id (db w)) = Ok incident ->
                      e' = e /\ outside w' = x').
Proof.
  intros Hai. split.
  - rewrite CreateIncident_run, Hai. reflexivity.
  - rewrite UpdateIncident_run, GetByID_run, Hai.
    match goal with
    | |- context [match ?r with Ok _ => _ | Err _ => _ end] =>
        destruct r as [incident|err] eqn:Hfetch
    end.
    + eexists _, _. split; [reflexivity |]. cbn [db outside sql.sent sql.table
        sql.auto_increment sql.executed fst]. repeat split; reflexivity.
    + eexists _, _. split; [reflexivity |]. cbn [db outside sql.sent sql.table
        sql.auto_increment sql.executed fst]. repeat split; try reflexivity;
        discriminate.
Qed.

Lemma classifier_error_writes_nothing_witness :
  exists e,
    usecase.CreateIncident
      (aiService := World_AIService (service.AsAIService testService))
      sampleRequest {| db := emptyDB; outside := scripted "not json" 7 |}
    = (Err e, {| db := emptyDB;
                 outside := {| completions := []; wall := 7 |} |}).
Proof.
  eexists.
  refine (proj1 (classifier_error_writes_nothing
                   (service.AsAIService testService) 1 sampleRequest
                   {| db := emptyDB; outside := scripted "not json" 7 |}
                   _ {| completions := []; wall := 7 |} _)).
  vm_compute. reflexivity.
Defined.

Lemma filter_id_absent (id : Z) (t : list sql.Row) :
  Forall (fun r => sql.id r <> id) t ->
  filter (fun r => sql.id r = id) t = [].
Proof.
  induction 1 as [|r t Hr _ IH]; [reflexivity |].
  rewrite filter_cons, decide_False by assumption. exact IH.
Qed.

(** C5.  For an identifier that no row of the table carries, and a driver
    that lets the statement through, [GetIncident], [UpdateIncident] and
    [DeleteIncident] all return the error [incident not found with id N],
    whose text ends with the identifier in decimal; for 999 it reads
    [incident not found with id 999]. *)
Theorem missing_incident_not_found {X : Type} (ai : AIService X)
  {clock : Clock X} (id : Z) (req : CreateIncidentRequest.t) (w : World X) :
  Forall (fun r => sql.id r <> id) (sql.table (db w)) ->
  (sql.driver (db w) (sql.executed (db w)) (sql.SelectByID id) = None ->
   fst (usecase.GetIncident id w) = Err (repository.notFound id) /\
   fst (usecase.UpdateIncident (aiService := World_AIService ai) id req w)
   = Err (repository.notFound id)) /\
  (sql.driver (db w) (sql.executed (db w)) (sql.DeleteByID id) = None ->
   fst (usecase.DeleteIncident id w) = Some (repository.notFound id)) /\
  Error (repository.notFound id) = "incident not found with id " +:+ pretty id /\
  Error (repository.notFound 999) = "incident not found with id 999".
Proof.
  intros Habsent. apply filter_id_absent in Habsent.
  split; [| split; [| split; reflexivity]].
  - intros Hdrv. split.
    + unfold usecase.GetIncident. cbn [GetByID World_Repository].
      unfold onDB. rewrite GetByID_run, Hdrv, Habsent. reflexivity.
    + rewrite UpdateIncident_run, GetByID_run, Hdrv, Habsent. reflexivity.
  - intros Hdrv. unfold usecase.DeleteIncident. cbn [Delete World_Repository].
    unfold onDB. rewrite Delete_run, Hdrv, Habsent. reflexivity.
Qed.

Lemma missing_incident_not_found_witness :
  fst (usecase.GetIncident 999
         {| db := sampleDB; outside := scripted "" 0 |})
  = Err (errorString "incident not found with id 999").
Proof.
  refine (proj1 (proj1 (missing_incident_not_found
                          (service.AsAIService testService) 999 sampleRequest
                          {| db := sampleDB; outside := scripted "" 0 |} _) _)).
  - repeat constructor; discriminate.
  - reflexivity.
Defined.

(** ** Ordering of the listing *)

#[global] Instance created_at_desc_total : Total sql.created_at_desc.
Proof. intros r1 r2. unfold sql.created_at_desc. lia. Qed.

#[global] Instance created_at_desc_trans : Transitive sql.created_at_desc.
Proof. intros r1 r2 r3. unfold sql.created_at_desc. lia. Qed.

Lemma StronglySorted_map {A B : Type} (R : relation A) (S : relation B)
  (f : A -> B) (l : list A) :
  (forall x y, R x y -> S (f x) (f y)) ->
  StronglySorted R l -> StronglySorted S (map f l).
Proof.
  intros Hf. induction 1 as [|x l _ IH Hx]; simpl; constructor.
  - exact IH.
  - apply Forall_forall. intros y Hy.
    apply list_elem_of_In, in_map_iff in Hy as (z & <- & Hz).
    apply Hf. rewrite Forall_forall in Hx. apply Hx. now apply list_elem_of_In.
Qed.

Lemma newest_first_times_unique (l1 l2 : list Incident) :
  StronglySorted newest_first l1 -> StronglySorted newest_first l2 ->
  l1 ≡ₚ l2 -> map CreatedAt l1 = map CreatedAt l2.
Proof.
  intros H1 H2 Hp.
  apply (StronglySorted_unique_strong (fun a b : Z => b <= a)).
  - intros x1 x2 _ _. lia.
  - now apply (StronglySorted_map newest_first).
  - now apply (StronglySorted_map newest_first).
  - now apply Permutation_map.
Qed.

Lemma GetAll_sorted (d : sql.DB) :
  sql.driver d (sql.executed d) sql.SelectAll = None ->
  exists l,
    fst (repository.GetAll d) = Ok l /\
    StronglySorted newest_first l /\
    l ≡ₚ map sql.Scan (sql.table d).
Proof.
  intros Hdrv. rewrite GetAll_run, Hdrv. eexists. split; [reflexivity |]. split.
  - apply (StronglySorted_map sql.created_at_desc); [now intros x y |].
    apply StronglySorted_merge_sort; typeclasses eauto.
  - apply Permutation_map, merge_sort_Permutation.
Qed.

(** C6.  With a driver that lets the query through, [GetAllIncidents]
    returns the stored incidents, each once, most recent creation time
    first.  Two tables holding the same rows in different insertion orders
    give two listings that are both in that order, hold the same incidents
    and show the same sequence of creation times. *)
Theorem GetAllIncidents_newest_first {X : Type} (w1 w2 : World X) :
  sql.table (db w2) ≡ₚ sql.table (db w1) ->
  sql.driver (db w1) (sql.executed (db w1)) sql.SelectAll = None ->
  sql.driver (db w2) (sql.executed (db w2)) sql.SelectAll = None ->
  exists l1 l2,
    fst (usecase.GetAllIncidents w1) = Ok l1 /\
    fst (usecase.GetAllIncidents w2) = Ok l2 /\
    StronglySorted newest_first l1 /\
    StronglySorted newest_first l2 /\
    l1 ≡ₚ map sql.Scan (sql.table (db w1)) /\
    l2 ≡ₚ l1 /\
    map CreatedAt l1 = map CreatedAt l2.
Proof.
  intros Hperm Hd1 Hd2.
  destruct (GetAll_sorted (db w1) Hd1) as (l1 & Hl1 & Hs1 & Hp1).
  destruct (GetAll_sorted (db w2) Hd2) as (l2 & Hl2 & Hs2 & Hp2).
  assert (l2 ≡ₚ l1) as Hp.
  { rewrite Hp1, Hp2. now apply Permutation_map. }
  exists l1, l2. unfold usecase.GetAllIncidents.
  cbn [GetAll World_Repository]. unfold onDB.
  destruct (repository.GetAll (db w1)) as [r1 d1].
  destruct (repository.GetAll (db w2)) as [r2 d2].
  repeat split; try assumption.
  now apply newest_first_times_unique.
Qed.

Lemma GetAllIncidents_newest_first_witness :
  exists l1 l2,
    fst (usecase.GetAllIncidents
           {| db := sampleDB; outside := scripted "" 0 |}) = Ok l1 /\
    fst (usecase.GetAllIncidents
           {| db := {| sql.table := [sampleRow 3 30; sampleRow 2 10; sampleRow 1 20];
                       sql.auto_increment := 4; sql.executed := [];
                       sql.driver := fun _ _ => None |};
              outside := scripted "" 0 |}) = Ok l2 /\
    map CreatedAt l1 = [30 * sql.second; 20 * sql.second; 10 * sql.second] /\
    map CreatedAt l2 = [30 * sql.second; 20 * sql.second; 10 * sql.second].
Proof.
  destruct (GetAllIncidents_newest_first
              {| db := sampleDB; outside := scripted "" 0 |}
              {| db := {| sql.table := [sampleRow 3 30; sampleRow 2 10; sampleRow 1 20];
                          sql.auto_increment := 4; sql.executed := [];
                          sql.driver := fun _ _ => None |};
                 outside := scripted "" 0 |})
    as (l1 & l2 & H1 & H2 & _ & _ & _ & _ & Ht).
  - symmetry.
    exact (Permutation_rev [sampleRow 1 20; sampleRow 2 10; sampleRow 3 30]).
  - reflexivity.
  - reflexivity.
  - exists l1, l2. split; [exact H1 |]. split; [exact H2 |].
    rewrite <- Ht. vm_compute in H1. injection H1 as <-.
    split; reflexivity.
Defined.

(** ** Round trip of a created incident *)







(** ** Frame of an update *)

Lemma filter_head_id (id : Z) (t : list sql.Row) (row : sql.Row)
  (rest : list sql.Row) :
  filter (fun r => sql.id r = id) t = row :: rest -> sql.id row = id.
Proof.
  intros Hf. assert (row ∈ filter (fun r => sql.id r = id) t) as Hin.
  { rewrite Hf. left. }
  now apply list_elem_of_filter in Hin as [Hid _].
Qed.

Lemma GetByID_found (id : Z) (d d' : sql.DB) (incident : Incident) :
  repository.GetByID id d = (Ok incident, d') ->
  ID incident = id /\
  d' = sql.sent (sql.SelectByID id) d (sql.table d) (sql.auto_increment d).
Proof.
  rewrite GetByID_run. intros Heq. injection Heq as Hr <-. split; [| reflexivity].
  destruct (sql.driver d (sql.executed d) (sql.SelectByID id)) as [err|].
  - case_decide; discriminate.
  - destruct (filter _ (sql.table d)) as [|row rest] eqn:Hf; [discriminate |].
    injection Hr as <-. cbn [sql.Scan ID]. eapply filter_head_id, Hf.
Qed.

Lemma map_assign_frame (t d a sev cat : string) (u : Time) (id : Z)
  (rows : list sql.Row) :
  let rows' :=
    map (fun r => if decide (sql.id r = id)
                  then sql.assign t d a sev cat u r else r) rows in
  map sql.id rows' = map sql.id rows /\
  map sql.created_at rows' = map sql.created_at rows.
Proof.
  induction rows as [|r rows [IH1 IH2]]; simpl; [split; reflexivity |].
  simpl in IH1, IH2. rewrite IH1, IH2. case_decide; split; reflexivity.
Qed.

(** C8.  A successful [UpdateIncident] returns the fetched record with its
    identifier and creation time as they were and with the title,
    description and affected service of the request, the severity and
    category of the new classification and the clock reading as update
    time.  In the table, the update rewrites those six columns of the rows
    carrying the identifier, the update time as the [TIMESTAMP] column keeps
    it, and nothing else: every row keeps its identifier and its creation
    time. *)
Theorem UpdateIncident_keeps_id_and_creation {X : Type} (ai : AIService X)
  {clock : Clock X} (id : Z) (req : CreateIncidentRequest.t) (w w' : World X)
  (updated : Incident) :
  usecase.UpdateIncident (aiService := World_AIService ai) id req w
  = (Ok updated, w') ->
  exists fetched analysis x1,
    fst (usecase.GetIncident id w) = Ok fetched /\
    AnalyzeIncident (CreateIncidentRequest.Title req)
      (CreateIncidentRequest.Description req)
      (CreateIncidentRequest.AffectedService req) (outside w)
    = (Ok analysis, x1) /\
    ID updated = ID fetched /\
    ID updated = id /\
    CreatedAt updated = CreatedAt fetched /\
    Title updated = CreateIncidentRequest.Title req /\
    Description updated = CreateIncidentRequest.Description req /\
    AffectedService updated = CreateIncidentRequest.AffectedService req /\
    AISeverity updated = Severity analysis /\
    AICategory updated = Category analysis /\
    UpdatedAt updated = fst (Now x1) /\
    sql.table (db w') =
      map (fun r => if decide (sql.id r = id)
                    then sql.assign (Title updated) (Description updated)
                           (AffectedService updated) (AISeverity updated)
                           (AICategory updated)
                           (sql.TIMESTAMP (UpdatedAt updated)) r
                    else r) (sql.table (db w)) /\
    map sql.id (sql.table (db w')) = map sql.id (sql.table (db w)) /\
    map sql.created_at (sql.table (db w'))
    = map sql.created_at (sql.table (db w)).
Proof.
  rewrite UpdateIncident_run.
  destruct (repository.GetByID id (db w)) as [[fetched|err] d1] eqn:Hget;
    [| discriminate].
  destruct (GetByID_found _ _ _ _ Hget) as [Hid ->].
  destruct (AnalyzeIncident _ _ _ (outside w)) as [[analysis|err] x1] eqn:Hai;
    [| discriminate].
  destruct (Now x1) as [now x2] eqn:Hnow.
  rewrite Update_run. cbn zeta.
  cbn [sql.sent sql.executed sql.driver sql.table sql.auto_increment].
  destruct (sql.driver _ _ _) as [err|]; [discriminate |].
  cbn [fst snd]. case_decide; [discriminate |].
  intros Heq. injection Heq as <- <-.
  exists fetched, analysis, x1.
  split.
  { unfold usecase.GetIncident. cbn [GetByID World_Repository]. unfold onDB.
    now rewrite Hget. }
  cbn [incidentOf ID Title Description AffectedService AISeverity AICategory
       CreatedAt UpdatedAt db sql.sent sql.table fst].
  rewrite Hid, Hnow. cbn [fst].
  repeat (split; [reflexivity |]).
  split; [apply (map_assign_frame _ _ _ _ _ _ id (sql.table (db w)))
         | apply (map_assign_frame _ _ _ _ _ _ id (sql.table (db w)))].
Qed.

Lemma UpdateIncident_keeps_id_and_creation_witness :
  exists updated w',
    usecase.UpdateIncident
      (aiService := World_AIService (service.AsAIService testService))
      2 sampleRequest
      {| db := sampleDB;
         outside := scripted (dq "{'severity':'Low','category':'Network'}")
                      50250000000 |}
    = (Ok updated, w') /\
    ID updated = 2 /\ CreatedAt updated = 10 * sql.second /\
    UpdatedAt updated = 50250000000 /\
    map sql.created_at (sql.table (db w'))
    = [20 * sql.second; 10 * sql.second; 30 * sql.second].
Proof.
  edestruct (UpdateIncident_keeps_id_and_creation
               (service.AsAIService testService) 2 sampleRequest
               {| db := sampleDB;
                  outside := scripted (dq "{'severity':'Low','category':'Network'}")
                      50250000000 |})
    as (fetched & analysis & x1 & Hget & Hai & _ & Hid & Hc & _ & _ & _ & _ & _
        & Hu & _ & _ & Hcs).
  - vm_compute. reflexivity.
  - vm_compute in Hget. injection Hget as <-.
    vm_compute in Hai. injection Hai as <- <-.
    eexists _, _. split; [vm_compute; reflexivity |].
    split; [exact Hid |]. split; [exact Hc |]. split; [exact Hu | exact Hcs].
Defined.

(** ** What reaches the table is classified *)

Lemma AnalyzeIncident_in_enumerations {W : Type} `{!openai.API W}
  (s : service.OpenAIService) (title description affectedService : string)
  (w w' : W) (r : IncidentAnalysis) :
  service.AnalyzeIncident s title description affectedService w = (Ok r, w') ->
  Severity r ∈ service.validSeverities /\ Category r ∈ service.validCategories.
Proof.
  intros Hrun.
  destruct (openai.CreateChatCompletion (service.client s)
              (service.chatRequest
                 (service.prompt title description affectedService)) w)
    as [[resp|err] w1] eqn:Hcall.
  2: { unfold service.AnalyzeIncident, bind in Hrun.
       rewrite Hcall in Hrun. discriminate. }
  destruct (openai.Choices resp) as [|choice rest] eqn:Hchoices.
  { unfold service.AnalyzeIncident, bind in Hrun.
    rewrite Hcall, Hchoices in Hrun. discriminate. }
  rewrite (AnalyzeIncident_decoded s _ _ _ w w1
             (openai.Content (openai.Message choice))) in Hrun
    by (eexists _, _, _; eauto).
  destruct (json.Unmarshal _ blank) as [a [err|]]; [discriminate |].
  injection Hrun as <- _. cbn [Severity Category]. unfold fallback.
  split; case_decide; try assumption;
    apply (bool_decide_unpack _); vm_compute; exact I.
Qed.

Lemma assign_classified (t d a sev cat : string) (u : Time) (id : Z)
  (rows : list sql.Row) :
  sev ∈ service.validSeverities -> cat ∈ service.validCategories ->
  Forall row_classified rows ->
  Forall row_classified
    (map (fun r => if decide (sql.id r = id)
                   then sql.assign t d a sev cat u r else r) rows).
Proof.
  intros Hsev Hcat. induction 1 as [|r rows Hr _ IH]; simpl; constructor.
  - case_decide; [split; assumption | exact Hr].
  - exact IH.
Qed.

(** C4.  With the OpenAI classifier in place, whatever the completion
    service answers, every [INSERT] and [UPDATE] that [CreateIncident] or
    [UpdateIncident] sends carries a severity among Low, Medium, High,
    Critical and a category among the seven categories, and a table whose
    rows are all so classified stays so.  The repository passes on the two
    values it is given without looking at them, so membership comes from
    the classifier's fallback. *)
Theorem persisted_classification_in_enumerations {X : Type} `{!openai.API X}
  {clock : Clock X} (s : service.OpenAIService) (id : Z)
  (req : CreateIncidentRequest.t) (w : World X) :
  (forall w',
     w' = snd (usecase.CreateIncident
                 (aiService := World_AIService (service.AsAIService s)) req w) \/
     w' = snd (usecase.UpdateIncident
                 (aiService := World_AIService (service.AsAIService s)) id req w) ->
     (exists new,
        sql.executed (db w') = sql.executed (db w) ++ new /\
        Forall classified new) /\
     (Forall row_classified (sql.table (db w)) ->
      Forall row_classified (sql.table (db w')))) /\
  (forall incident d,
     sql.executed (snd (repository.Create incident d)) =
     sql.executed d ++
       [sql.Insert (Title incident) (Description incident)
          (AffectedService incident) (AISeverity incident)
          (AICategory incident) (CreatedAt incident) (UpdatedAt incident)] /\
     sql.executed (snd (repository.Update incident d)) =
     sql.executed d ++
       [sql.UpdateByID (Title incident) (Description incident)
          (AffectedService incident) (AISeverity incident)
          (AICategory incident) (UpdatedAt incident) (ID incident)]).
Proof.
  split.
  - intros w' [-> | ->].
    + rewrite CreateIncident_run.
      destruct (AnalyzeIncident _ _ _ (outside w)) as [[analysis|err] x1] eqn:Hai.
      * apply AnalyzeIncident_in_enumerations in Hai as [Hsev Hcat].
        destruct (Now x1) as [createdAt x2]. destruct (Now x2) as [updatedAt x3].
        rewrite Create_run. cbn zeta.
        destruct (sql.driver _ _ _); cbn [snd db sql.sent sql.executed sql.table].
        -- split; [| tauto]. eexists. split; [reflexivity |].
           apply Forall_singleton. split; assumption.
        -- split.
           ++ eexists. split; [reflexivity |].
              apply Forall_singleton. split; assumption.
           ++ intros Hrows. apply Forall_app. split; [exact Hrows |].
              apply Forall_singleton. split; assumption.
      * cbn [snd db]. split; [| tauto]. exists []. split; [| constructor].
        now rewrite app_nil_r.
    + rewrite UpdateIncident_run, GetByID_run.
      match goal with
      | |- context [match ?r with Ok _ => _ | Err _ => _ end] =>
          destruct r as [incident|err]
      end.
      * destruct (AnalyzeIncident _ _ _ (outside w)) as [[analysis|err] x1] eqn:Hai.
        -- apply AnalyzeIncident_in_enumerations in Hai as [Hsev Hcat].
           destruct (Now x1) as [now x2]. rewrite Update_run. cbn zeta.
           cbn [sql.sent sql.executed sql.driver sql.table sql.auto_increment].
           destruct (sql.driver _ _ _);
             cbn [snd db sql.sent sql.executed sql.table].
           ++ split; [| tauto]. eexists. split; [now rewrite <- app_assoc |].
              apply Forall_app. split; apply Forall_singleton;
                [exact I | split; assumption].
           ++ split.
              ** eexists. split; [now rewrite <- app_assoc |].
                 apply Forall_app. split; apply Forall_singleton;
                   [exact I | split; assumption].
              ** now apply assign_classified.
        -- cbn [snd db sql.sent sql.executed sql.table]. split; [| tauto].
           eexists. split; [reflexivity |]. apply Forall_singleton. exact I.
      * cbn [snd db sql.sent sql.executed sql.table]. split; [| tauto].
        eexists. split; [reflexivity |]. apply Forall_singleton. exact I.
  - intros incident d. rewrite Create_run, Update_run. cbn zeta.
    split; destruct (sql.driver _ _ _); reflexivity.
Qed.

Lemma persisted_classification_in_enumerations_witness :
  Forall row_classified
    (sql.table
       (db (snd (usecase.CreateIncident
                   (aiService := World_AIService (service.AsAIService testService))
                   sampleRequest
                   {| db := sampleDB;
                      outside := scripted (dq "{'severity':'Urgent','category':'Disk'}") 9 |})))).
Proof.
  refine (proj2 (proj1 (persisted_classification_in_enumerations
                          (X := Script) testService 1 sampleRequest
                          {| db := sampleDB;
                             outside := scripted (dq "{'severity':'Urgent','category':'Disk'}") 9 |})
                   _ (or_introl eq_refl)) _).
  repeat constructor; apply (bool_decide_unpack _); vm_compute; exact I.
Defined.

(** ** Construction of the classifier *)

(** C9.  [NewOpenAIService] panics when [OPENAI_API_KEY] is not set in the
    environment (and when it is set to the empty string); when it is set to
    a non-empty key, it returns a service whose client holds that key.  The
    failure is thus met at construction: without a key no service value
    exists on which [AnalyzeIncident] could be called. *)
Theorem NewOpenAIService_fails_fast (environ : gmap string string) :
  (environ !! "OPENAI_API_KEY" = None ->
   service.NewOpenAIService environ
   = Panicked "OPENAI_API_KEY environment variable is required") /\
  (environ !! "OPENAI_API_KEY" = Some EmptyString ->
   service.NewOpenAIService environ
   = Panicked "OPENAI_API_KEY environment variable is required") /\
  (forall key,
     environ !! "OPENAI_API_KEY" = Some key -> key <> EmptyString ->
     service.NewOpenAIService environ
     = Returned {| service.client := openai.NewClient key |}).
Proof.
  unfold service.NewOpenAIService, os.Getenv.
  split; [| split].
  - intros Hkey. rewrite Hkey. reflexivity.
  - intros Hkey. rewrite Hkey. reflexivity.
  - intros key Hkey Hne. rewrite Hkey. cbn [default from_option id].
    destruct (String.eqb key "") eqn:E; [| reflexivity].
    apply String.eqb_eq in E. contradiction.
Qed.

Lemma NewOpenAIService_fails_fast_witness :
  service.NewOpenAIService ∅
  = Panicked "OPENAI_API_KEY environment variable is required" /\
  service.NewOpenAIService {[ "OPENAI_API_KEY" := "test-key" ]}
  = Returned testService.
Proof.
  split.
  - apply (proj1 (NewOpenAIService_fails_fast ∅)). reflexivity.
  - apply (proj2 (proj2 (NewOpenAIService_fails_fast
                           {[ "OPENAI_API_KEY" := "test-key" ]}))).
    + reflexivity.
    + discriminate.
Defined.

(** ** The use case over any repository

    Whatever implements the repository, a classifier error ends
    [CreateIncident] on the spot: the world is the one the classifier left,
    so no repository method has run.  [UpdateIncident] stops after its
    fetch. *)

Section AnyRepository.
Context {W : Type}.
Context {incidentRepo : IncidentRepository W} {aiService : AIService W}.
Context {clock : Clock W}.

Lemma CreateIncident_classifier_error (req : CreateIncidentRequest.t)
  (w w' : W) (e : error) :
  AnalyzeIncident (CreateIncidentRequest.Title req)
    (CreateIncidentRequest.Description req)
    (CreateIncidentRequest.AffectedService req) w = (Err e, w') ->
  usecase.CreateIncident req w = (Err e, w').
Proof.
  intros Hai. unfold usecase.CreateIncident, bind. now rewrite Hai.
Qed.

Lemma UpdateIncident_classifier_error (id : Z) (req : CreateIncidentRequest.t)
  (w w1 w2 : W) (incident : Incident) (e : error) :
  GetByID id w = (Ok incident, w1) ->
  AnalyzeIncident (CreateIncidentRequest.Title req)
    (CreateIncidentRequest.Description req)
    (CreateIncidentRequest.AffectedService req) w1 = (Err e, w2) ->
  usecase.UpdateIncident id req w = (Err e, w2).
Proof.
  intros Hget Hai. unfold usecase.UpdateIncident, bind. now rewrite Hget, Hai.
Qed.

Lemma UpdateIncident_fetch_error (id : Z) (req : CreateIncidentRequest.t)
  (w w1 : W) (e : error) :
  GetByID id w = (Err e, w1) ->
  usecase.UpdateIncident id req w = (Err e, w1).
Proof.
  intros Hget. unfold usecase.UpdateIncident, bind. now rewrite Hget.
Qed.

End AnyRepository.

(** ** Identifiers come from the counter *)

Lemma emptyDB_ids_below_counter : ids_below_counter emptyDB.
Proof. constructor. Qed.

Lemma run_ids_below_counter (s : sql.Stmt) (d : sql.DB) :
  ids_below_counter d -> ids_below_counter (snd (sql.run s d)).
Proof.
  unfold ids_below_counter, sql.run. intros Hids.
  destruct (sql.driver d (sql.executed d) s); [exact Hids |].
  destruct s; cbn [snd sql.sent sql.table sql.auto_increment]; try exact Hids.
  - apply Forall_app. split.
    + eapply Forall_impl; [exact Hids |]. simpl. intros r Hr. lia.
    + apply Forall_singleton. simpl. lia.
  - induction Hids as [|r t Hr _ IH]; simpl; constructor; [| exact IH].
    case_decide; [exact Hr | exact Hr].
  - induction Hids as [|r t Hr _ IH]; [constructor |].
    rewrite filter_cons. case_decide; [constructor |]; assumption.
Qed.

(** ** The readers never run out of fuel

    Each recursive call of the JSON reader and of the white-space trimmer is
    made on a strictly shorter text, so their results do not depend on the
    fuel once it exceeds what [json.parse] and [strings.TrimSpace] give. *)

Section Fuel.
Local Open Scope nat_scope.

Lemma skipSpace_length (s : string) :
  String.length (json.skipSpace s) <= String.length s.
Proof.
  induction s as [|c s IH]; simpl; [lia |].
  destruct (json.isSpace c); simpl; lia.
Qed.

Lemma skipSpace_cons (s : string) (c : ascii) (rest : string) :
  json.skipSpace s = String c rest -> shorter rest s.
Proof.
  intros H. pose proof (skipSpace_length s) as Hl. rewrite H in Hl.
  unfold shorter. simpl in Hl. lia.
Qed.

Lemma hasPrefix_length (p s r : string) :
  strings.hasPrefix p s = Some r ->
  String.length s = String.length p + String.length r.
Proof.
  revert s. induction p as [|a p IH]; intros [|b s]; simpl; try discriminate.
  - now intros [= <-].
  - now intros [= <-].
  - destruct (Ascii.eqb a b); [| discriminate]. intros H. now rewrite (IH _ H).
Qed.

Lemma getu4_length (s r : string) (n : N) :
  json.getu4 s = Some (n, r) -> String.length s = 4 + String.length r.
Proof.
  unfold json.getu4.
  destruct s as [|a [|b [|c [|d rest]]]]; try discriminate.
  destruct (json.hexVal a), (json.hexVal b), (json.hexVal c), (json.hexVal d);
    try discriminate.
  now intros [= _ <-].
Qed.

Lemma splitAt_length (k : nat) (s a b : string) :
  json.splitAt k s = (a, b) ->
  String.length b + Nat.min k (String.length s) = String.length s.
Proof.
  revert s a b. induction k as [|k IH]; intros s a b; simpl.
  - destruct s; intros [= <- <-]; simpl; lia.
  - destruct s as [|c s]; [intros [= <- <-]; simpl; lia |].
    destruct (json.splitAt k s) as [a' b'] eqn:E. intros [= <- <-].
    apply IH in E. simpl. lia.
Qed.

Lemma digits_length (s ds r : string) :
  json.digits s = (ds, r) ->
  String.length s = String.length ds + String.length r.
Proof.
  revert ds r. induction s as [|c s IH]; intros ds r; simpl.
  - now intros [= <- <-].
  - destruct (json.isDigit c); [| now intros [= <- <-]].
    destruct (json.digits s) as [ds' r'] eqn:E. intros [= <- <-].
    simpl. now rewrite (IH _ _ eq_refl).
Qed.

Lemma escape_shorter (s out rest : string) :
  json.escape s = Some (out, rest) -> shorter rest s.
Proof.
  unfold json.escape, shorter. destruct s as [|e rest1]; [discriminate |].
  intros H. repeat case_match; simplify_eq; simpl;
    repeat match goal with
           | H : json.getu4 _ = Some _ |- _ => apply getu4_length in H
           end; simpl in *; lia.
Qed.

Lemma stringUnit_shorter (s out rest : string) :
  json.stringUnit s = Some (out, rest) -> shorter rest s.
Proof.
  unfold json.stringUnit, shorter. destruct s as [|c s']; [discriminate |].
  intros H. repeat case_match; simplify_eq; simpl; try lia.
  - apply escape_shorter in H. unfold shorter in H. lia.
  - match goal with
    | H : json.splitAt _ _ = _ |- _ => apply splitAt_length in H; simpl in H
    end. lia.
Qed.

Lemma emit_Some (out : string) (r : option (string * string))
  (body rest : string) :
  json.emit out r = Some (body, rest) -> exists body', r = Some (body', rest).
Proof.
  destruct r as [[b r']|]; simpl; [| discriminate]. intros [= _ <-]. eauto.
Qed.

Lemma unquote_shorter (fuel : nat) (s body rest : string) :
  json.unquote fuel s = Some (body, rest) -> shorter rest s.
Proof.
  revert s body rest. induction fuel as [|fuel IH]; intros s body rest; simpl;
    [discriminate |].
  destruct s as [|c s']; [discriminate |].
  destruct (_ =? _)%N; [intros [= _ <-]; unfold shorter; simpl; lia |].
  destruct (json.stringUnit (String c s')) as [[out rest']|] eqn:Hu;
    [| discriminate].
  intros H. apply emit_Some in H as [body' H]. apply IH in H.
  apply stringUnit_shorter in Hu. unfold shorter in *. lia.
Qed.

(** The fuel that [parseValue] hands to [unquote] is enough. *)
Lemma unquote_fuel (f1 f2 : nat) (s : string) :
  String.length s < f1 -> String.length s < f2 ->
  json.unquote f1 s = json.unquote f2 s.
Proof.
  revert f2 s. induction f1 as [|f1 IH]; intros f2 s H1 H2; [lia |].
  destruct f2 as [|f2]; [lia |]. simpl.
  destruct s as [|c s']; [reflexivity |].
  destruct (_ =? _)%N; [reflexivity |].
  destruct (json.stringUnit (String c s')) as [[out rest']|] eqn:Hu;
    [| reflexivity].
  apply stringUnit_shorter in Hu. unfold shorter in Hu.
  rewrite (IH f2 rest'); [reflexivity | |]; simpl in *; lia.
Qed.

Lemma number_shorter (s lit rest : string) :
  json.number s = Some (lit, rest) -> shorter rest s.
Proof.
  unfold json.number, shorter. intros H.
  repeat case_match; simplify_eq;
    repeat match goal with
           | H : json.digits (String ?c ?r) = _,
             Hd : json.isDigit ?c = true |- _ =>
               simpl in H; rewrite Hd in H;
               destruct (json.digits r) eqn:?; simplify_eq
           | H : json.digits _ = _ |- _ => apply digits_length in H
           end; simpl in *; lia.
Qed.

Lemma literal_shorter (word : string) (v : json.value) (s : string)
  (v' : json.value) (rest : string) :
  word <> EmptyString ->
  json.literal word v s = Some (v', rest) -> shorter rest s.
Proof.
  unfold json.literal, shorter. intros Hw H.
  destruct (strings.hasPrefix word s) as [r|] eqn:E; [| discriminate].
  injection H as _ <-. apply hasPrefix_length in E.
  destruct word; [congruence |]. simpl in E. lia.
Qed.

Ltac shorten IH :=
  repeat match goal with
         | H : json.skipSpace _ = String _ _ |- _ => apply skipSpace_cons in H
         | H : json.parseValue _ _ _ = Some _ |- _ => apply IH in H
         | H : json.parseMembers _ _ _ = Some _ |- _ => apply IH in H
         | H : json.parseElements _ _ _ = Some _ |- _ => apply IH in H
         | H : json.unquote _ _ = Some _ |- _ => apply unquote_shorter in H
         | H : json.number _ = Some _ |- _ => apply number_shorter in H
         | H : json.literal _ _ _ = Some _ |- _ =>
             apply literal_shorter in H; [| discriminate]
         end;
  unfold shorter in *; simpl in *; lia.

(** A value, a member list or an element list that was read took at least
    one byte. *)
Lemma parse_shorter (fuel : nat) :
  forall (depth : N) (s : string),
    (forall v r, json.parseValue fuel depth s = Some (v, r) -> shorter r s) /\
    (forall ms r, json.parseMembers fuel depth s = Some (ms, r) -> shorter r s) /\
    (forall vs r, json.parseElements fuel depth s = Some (vs, r) -> shorter r s).
Proof.
  induction fuel as [|fuel IH]; intros depth s; [repeat split; discriminate |].
  repeat split.
  - intros v r H. cbn [json.parseValue] in H.
    destruct (json.skipSpace s) as [|c rest] eqn:Hs; [discriminate |].
    repeat case_match; simplify_eq; shorten IH.
  - intros ms r H. cbn [json.parseMembers] in H.
    destruct (json.skipSpace s) as [|c rest] eqn:Hs; [discriminate |].
    repeat case_match; simplify_eq; shorten IH.
  - intros vs r H. cbn [json.parseElements] in H.
    repeat case_match; simplify_eq; shorten IH.
Qed.

(** Above twice the length of the text (and one more for an element list),
    the result of the reader is the same for every fuel. *)
Lemma parse_fuel (f1 : nat) :
  forall (f2 : nat) (depth : N) (s : string),
    (2 * String.length s < f1 -> 2 * String.length s < f2 ->
     json.parseValue f1 depth s = json.parseValue f2 depth s) /\
    (2 * String.length s < f1 -> 2 * String.length s < f2 ->
     json.parseMembers f1 depth s = json.parseMembers f2 depth s) /\
    (2 * String.length s + 1 < f1 -> 2 * String.length s + 1 < f2 ->
     json.parseElements f1 depth s = json.parseElements f2 depth s).
Proof.
  induction f1 as [|f1 IH]; intros f2 depth s; [repeat split; lia |].
  destruct f2 as [|f2]; [repeat split; lia |].
  repeat split; intros H1 H2.
  - cbn [json.parseValue].
    destruct (json.skipSpace s) as [|c rest] eqn:Hs; [reflexivity |].
    apply skipSpace_cons in Hs. unfold shorter in Hs.
    rewrite (proj1 (proj2 (IH f2 (depth + 1)%N rest))) by lia.
    rewrite (proj2 (proj2 (IH f2 (depth + 1)%N rest))) by lia.
    reflexivity.
  - cbn [json.parseMembers].
    destruct (json.skipSpace s) as [|c rest] eqn:Hs; [reflexivity |].
    apply skipSpace_cons in Hs.
    destruct (_ =? _)%N; [| reflexivity].
    destruct (json.unquote _ rest) as [[key r1]|] eqn:Hq; [| reflexivity].
    apply unquote_shorter in Hq.
    destruct (json.skipSpace r1) as [|c2 r2] eqn:Hs1; [reflexivity |].
    apply skipSpace_cons in Hs1.
    destruct (_ =? _)%N; [| reflexivity].
    unfold shorter in *.
    rewrite (proj1 (IH f2 depth r2)) by lia.
    destruct (json.parseValue f2 depth r2) as [[v r3]|] eqn:Hv; [| reflexivity].
    apply parse_shorter in Hv.
    destruct (json.skipSpace r3) as [|c3 r4] eqn:Hs3; [reflexivity |].
    apply skipSpace_cons in Hs3.
    destruct (_ =? _)%N; [| reflexivity].
    unfold shorter in *.
    rewrite (proj1 (proj2 (IH f2 depth r4))) by lia. reflexivity.
  - cbn [json.parseElements].
    rewrite (proj1 (IH f2 depth s)) by lia.
    destruct (json.parseValue f2 depth s) as [[v r1]|] eqn:Hv; [| reflexivity].
    apply parse_shorter in Hv.
    destruct (json.skipSpace r1) as [|c r2] eqn:Hs1; [reflexivity |].
    apply skipSpace_cons in Hs1.
    destruct (_ =? _)%N; [| reflexivity].
    unfold shorter in *.
    rewrite (proj2 (proj2 (IH f2 depth r2))) by lia. reflexivity.
Qed.

(** More fuel than [json.parse] provides changes nothing. *)
Lemma parseValue_fuel_enough (extra : nat) (s : string) :
  json.parseValue (2 * String.length s + 2 + extra) 0 s
  = json.parseValue (2 * String.length s + 2) 0 s.
Proof. apply parse_fuel; lia. Qed.

Lemma spaces_nonempty :
  Forall (fun p => p <> EmptyString) strings.spaces /\
  Forall (fun p => p <> EmptyString) (map strings.rev strings.spaces).
Proof. split; repeat constructor; discriminate. Qed.

Lemma dropSpace_shorter (ps : list string) (s rest : string) :
  Forall (fun p => p <> EmptyString) ps ->
  strings.dropSpace ps s = Some rest -> shorter rest s.
Proof.
  unfold shorter. induction 1 as [|p ps Hp _ IH]; simpl; [discriminate |].
  destruct (strings.hasPrefix p s) as [r|] eqn:E; [| exact IH].
  intros [= <-]. apply hasPrefix_length in E. destruct p; [congruence |].
  simpl in E. lia.
Qed.

(** More fuel than [strings.TrimSpace] provides changes nothing. *)
Lemma trimLeft_fuel (f1 f2 : nat) (ps : list string) (s : string) :
  Forall (fun p => p <> EmptyString) ps ->
  String.length s <= f1 -> String.length s <= f2 ->
  strings.trimLeft f1 ps s = strings.trimLeft f2 ps s.
Proof.
  intros Hps. revert f2 s.
  assert (forall f, strings.trimLeft f ps EmptyString = EmptyString) as Hempty.
  { intros [|f]; simpl; [reflexivity |].
    destruct (strings.dropSpace ps EmptyString) eqn:E; [| reflexivity].
    apply dropSpace_shorter in E; [| assumption].
    unfold shorter in E. simpl in E. lia. }
  induction f1 as [|f1 IH]; intros f2 s H1 H2.
  - destruct s; [| simpl in H1; lia]. now rewrite !Hempty.
  - destruct f2 as [|f2].
    + destruct s; [| simpl in H2; lia]. now rewrite !Hempty.
    + simpl. destruct (strings.dropSpace ps s) as [rest|] eqn:E; [| reflexivity].
      apply dropSpace_shorter in E; [| assumption].
      unfold shorter in E. apply IH; lia.
Qed.

End Fuel.

(** ** The unit tests of the repository, replayed on the model *)

(** [TestContains] *)
Example test_contains :
  service.contains ["a"; "b"; "c"] "a" = true /\
  service.contains ["a"; "b"; "c"] "b" = true /\
  service.contains ["a"; "b"; "c"] "c" = true /\
  service.contains ["a"; "b"; "c"] "d" = false /\
  service.contains ["a"; "b"; "c"] "" = false.
Proof. repeat split. Qed.

(** [TestOpenAIService_AnalyzeIncident], successful analysis *)
Example test_AnalyzeIncident_success :
  fst (service.AnalyzeIncident testService "Database timeout"
         "Users unable to login" "Auth Service"
         (scripted (dq "{'severity': 'High', 'category': 'Database'}") 0))
  = Ok {| Severity := "High"; Category := "Database" |}.
Proof. vm_compute. reflexivity. Qed.

(** [TestOpenAIService_AnalyzeIncident], invalid severity fallback *)
Example test_AnalyzeIncident_invalid_severity :
  fst (service.AnalyzeIncident testService "Minor issue" "Small bug"
         "UI Service"
         (scripted (dq "{'severity': 'Invalid', 'category': 'Software'}") 0))
  = Ok {| Severity := "Medium"; Category := "Software" |}.
Proof. vm_compute. reflexivity. Qed.

(** [TestOpenAIService_AnalyzeIncident], invalid category fallback *)
Example test_AnalyzeIncident_invalid_category :
  fst (service.AnalyzeIncident testService "Network issue" "Connection lost"
         "Network Service"
         (scripted (dq "{'severity': 'High', 'category': 'Invalid'}") 0))
  = Ok {| Severity := "High"; Category := "Software" |}.
Proof. vm_compute. reflexivity. Qed.

(** [TestOpenAIService_AnalyzeIncident], AI service error *)
Example test_AnalyzeIncident_service_error :
  fst (service.AnalyzeIncident testService "Test incident" "Test description"
         "Test Service"
         {| completions := [Err (errorString "API error")]; wall := 0 |})
  = Err (wrapError "failed to get AI analysis: API error"
           (errorString "API error")).
Proof. vm_compute. reflexivity. Qed.

(** An answer without choices *)
Example test_AnalyzeIncident_no_choice :
  fst (service.AnalyzeIncident testService "Test incident" "Test description"
         "Test Service"
         {| completions := [Ok {| openai.Choices := [] |}]; wall := 0 |})
  = Err (errorString "no response from AI service").
Proof. vm_compute. reflexivity. Qed.

(** [TestMySQLIncidentRepository_Create] *)
Example test_repository_Create :
  let incident :=
    {| ID := 0; Title := "Test Incident"; Description := "Test Description";
       AffectedService := "Test Service"; AISeverity := "Medium";
       AICategory := "Software"; CreatedAt := 5; UpdatedAt := 5 |} in
  fst (repository.Create incident emptyDB)
  = ({| ID := 1; Title := "Test Incident"; Description := "Test Description";
        AffectedService := "Test Service"; AISeverity := "Medium";
        AICategory := "Software"; CreatedAt := 5; UpdatedAt := 5 |}, None).
Proof. vm_compute. reflexivity. Qed.

(** [TestMySQLIncidentRepository_GetByID_NotFound],
    [TestMySQLIncidentRepository_Update_NotFound] and
    [TestMySQLIncidentRepository_Delete_NotFound] *)
Example test_repository_not_found :
  let incident :=
    {| ID := 999; Title := "Updated Incident";
       Description := "Updated Description";
       AffectedService := "Updated Service"; AISeverity := "High";
       AICategory := "Network"; CreatedAt := 5; UpdatedAt := 6 |} in
  fst (repository.GetByID 999 sampleDB)
  = Err (errorString "incident not found with id 999") /\
  snd (fst (repository.Update incident sampleDB))
  = Some (errorString "incident not found with id 999") /\
  fst (repository.Delete 999 sampleDB)
  = Some (errorString "incident not found with id 999").
Proof. vm_compute. repeat split. Qed.

(** [TestMySQLIncidentRepository_Delete] *)
Example test_repository_Delete :
  let (err, d) := repository.Delete 1 sampleDB in
  err = None /\ sql.table d = [sampleRow 2 10; sampleRow 3 30].
Proof. vm_compute. repeat split. Qed.

(** [TestCreateIncident], successful incident creation *)
Example test_CreateIncident_success :
  fst (createIncident
         {| CreateIncidentRequest.Title := "Test Incident";
            CreateIncidentRequest.Description := "Test Description";
            CreateIncidentRequest.AffectedService := "Test Service" |}
         {| db := emptyDB;
            outside :=
              scripted (dq "{'severity': 'Medium', 'category': 'Software'}") 5 |})
  = Ok {| ID := 1; Title := "Test Incident"; Description := "Test Description";
          AffectedService := "Test Service"; AISeverity := "Medium";
          AICategory := "Software"; CreatedAt := 5; UpdatedAt := 6 |}.
Proof. vm_compute. reflexivity. Qed.

(** [TestCreateIncident], AI service error: the repository is not called *)
Example test_CreateIncident_ai_error :
  createIncident sampleRequest
    {| db := emptyDB;
       outside :=
         {| completions := [Err (errorString "AI service unavailable")];
            wall := 5 |} |}
  = (Err (wrapError "failed to get AI analysis: AI service unavailable"
            (errorString "AI service unavailable")),
     {| db := emptyDB; outside := {| completions := []; wall := 5 |} |}).
Proof. vm_compute. reflexivity. Qed.

(** [TestCreateIncident], repository error *)
Example test_CreateIncident_repository_error :
  fst (createIncident sampleRequest
         {| db := brokenDB;
            outside :=
              scripted (dq "{'severity': 'High', 'category': 'Network'}") 5 |})
  = Err (wrapError "failed to create incident: database error"
           (errorString "database error")).
Proof. vm_compute. reflexivity. Qed.

(** An update that changes nothing of the row, here one that repeats the
    texts and the classification within the second of the stored update
    time: the server reports no row changed, and the repository answers as
    for a missing incident. *)
Example test_UpdateIncident_unchanged :
  let unchanged :=
    {| CreateIncidentRequest.Title := "Disk full";
       CreateIncidentRequest.Description := "No space left";
       CreateIncidentRequest.AffectedService := "Storage" |} in
  fst (updateIncident 2 unchanged
         {| db := sampleDB;
            outside :=
              scripted (dq "{'severity': 'High', 'category': 'Hardware'}")
                10300000000 |})
  = Err (errorString "incident not found with id 2").
Proof. vm_compute. reflexivity. Qed.

(** * Further properties *)

(** ** The classifier *)

(** X1.  [contains] answers whether the item occurs in the slice: [true]
    exactly when it does, [false] exactly when it does not, wherever in the
    slice it stands. *)
Theorem contains_iff_member (slice : list string) (item : string) :
  (service.contains slice item = true <-> item ∈ slice) /\
  (service.contains slice item = false <-> item ∉ slice) /\
  (forall front back, service.contains (front ++ item :: back) item = true).
Proof.
  assert (forall l, service.contains l item = true <-> item ∈ l) as Hiff.
  { intros l. induction l as [|s l IH]; simpl.
    - split; [discriminate | intros H; inversion H].
    - destruct (String.eqb s item) eqn:E.
      + apply String.eqb_eq in E. subst. split; [intros _; left | reflexivity].
      + apply String.eqb_neq in E. rewrite IH. split.
        * intros H. now right.
        * intros H. inversion H; subst; [congruence | assumption]. }
  split; [apply Hiff |]. split.
  - rewrite <- Hiff. destruct (service.contains slice item); split;
      congruence.
  - intros front back. apply Hiff. apply elem_of_app. right. left.
Qed.

(** X2.  When the call to the completion service fails, [AnalyzeIncident]
    returns that failure wrapped as [failed to get AI analysis: ...]; when the
    service answers without any choice, it returns the error [no response
    from AI service].  In both cases no analysis is returned, and the world
    is the one the single call left. *)
Theorem AnalyzeIncident_transport_failure {W : Type} `{!openai.API W}
  (s : service.OpenAIService) (title description affectedService : string)
  (w w' : W) :
  (forall err,
     openai.CreateChatCompletion (service.client s)
       (service.chatRequest (service.prompt title description affectedService)) w
     = (Err err, w') ->
     service.AnalyzeIncident s title description affectedService w
     = (Err (wrapError ("failed to get AI analysis: " +:+ Error err) err), w')) /\
  (forall resp,
     openai.CreateChatCompletion (service.client s)
       (service.chatRequest (service.prompt title description affectedService)) w
     = (Ok resp, w') ->
     openai.Choices resp = [] ->
     service.AnalyzeIncident s title description affectedService w
     = (Err (errorString "no response from AI service"), w')).
Proof.
  split.
  - intros err Hcall. unfold service.AnalyzeIncident, bind. now rewrite Hcall.
  - intros resp Hcall Hnone. unfold service.AnalyzeIncident, bind.
    now rewrite Hcall, Hnone.
Qed.

Lemma AnalyzeIncident_transport_failure_witness :
  service.AnalyzeIncident testService "T" "D" "S"
    {| completions := [Err (errorString "API error")]; wall := 3 |}
  = (Err (wrapError "failed to get AI analysis: API error"
            (errorString "API error")),
     {| completions := []; wall := 3 |}) /\
  service.AnalyzeIncident testService "T" "D" "S"
    {| completions := [Ok {| openai.Choices := [] |}]; wall := 3 |}
  = (Err (errorString "no response from AI service"),
     {| completions := []; wall := 3 |}).
Proof.
  split.
  - apply (proj1 (AnalyzeIncident_transport_failure (W := Script) testService
                    "T" "D" "S"
                    {| completions := [Err (errorString "API error")]; wall := 3 |}
                    {| completions := []; wall := 3 |})
             (errorString "API error")); reflexivity.
  - apply (proj2 (AnalyzeIncident_transport_failure (W := Script) testService
                    "T" "D" "S"
                    {| completions := [Ok {| openai.Choices := [] |}]; wall := 3 |}
                    {| completions := []; wall := 3 |})
             {| openai.Choices := [] |}); reflexivity.
Defined.

(** X3.  Whatever the completion service does, [AnalyzeIncident] either
    returns an error or an analysis whose severity and category are members
    of the two enumerations; feeding such an analysis through the fallback
    again changes nothing. *)
Theorem AnalyzeIncident_result_in_enumerations {W : Type} `{!openai.API W}
  (s : service.OpenAIService) (title description affectedService : string)
  (w : W) :
  match fst (service.AnalyzeIncident s title description affectedService w) with
  | Err _ => True
  | Ok r =>
      Severity r ∈ service.validSeverities /\
      Category r ∈ service.validCategories /\
      fallback service.validSeverities "Medium" (Severity r) = Severity r /\
      fallback service.validCategories "Software" (Category r) = Category r
  end.
Proof.
  destruct (service.AnalyzeIncident s title description affectedService w)
    as [[r|err] w'] eqn:Hrun; [| exact I].
  cbn [fst]. apply AnalyzeIncident_in_enumerations in Hrun as [Hsev Hcat].
  unfold fallback. rewrite !decide_True by assumption. tauto.
Qed.

(** X4.  The analysis depends on the text of the first choice only: two
    answers whose first choices carry the same text give the same result,
    whatever further choices follow and whatever incident was described. *)
Theorem AnalyzeIncident_first_choice_only {W : Type} `{!openai.API W}
  (s : service.OpenAIService) (t1 d1 a1 t2 d2 a2 : string)
  (w1 w1' w2 w2' : W) (content : string) :
  answers s t1 d1 a1 w1 content w1' ->
  answers s t2 d2 a2 w2 content w2' ->
  fst (service.AnalyzeIncident s t1 d1 a1 w1)
  = fst (service.AnalyzeIncident s t2 d2 a2 w2).
Proof.
  intros H1 H2.
  rewrite (AnalyzeIncident_decoded _ _ _ _ _ _ _ H1).
  rewrite (AnalyzeIncident_decoded _ _ _ _ _ _ _ H2).
  destruct (json.Unmarshal _ blank) as [a [err|]]; reflexivity.
Qed.

Lemma AnalyzeIncident_first_choice_only_witness :
  fst (service.AnalyzeIncident testService "Disk full" "No space" "Storage"
         {| completions :=
              [Ok {| openai.Choices :=
                       [ {| openai.Message :=
                              {| openai.Role := "assistant";
                                 openai.Content := dq "{'severity':'Low'}" |} |};
                         {| openai.Message :=
                              {| openai.Role := "assistant";
                                 openai.Content := dq "{'severity':'High'}" |} |} ] |}];
            wall := 0 |})
  = fst (service.AnalyzeIncident testService "T" "D" "S"
           (scripted (dq "{'severity':'Low'}") 9)).
Proof.
  eapply AnalyzeIncident_first_choice_only with (content := dq "{'severity':'Low'}");
    eexists _, _, _; repeat split.
Defined.

(** ** The repository *)



Lemma map_id_absent (id : Z) (f : sql.Row -> sql.Row) (t : list sql.Row) :
  Forall (fun r => sql.id r <> id) t ->
  map (fun r => if decide (sql.id r = id) then f r else r) t = t.
Proof.
  induction 1 as [|r t Hr _ IH]; simpl; [reflexivity |].
  now rewrite decide_False, IH.
Qed.

Lemma filter_and_absent (id : Z) (P : sql.Row -> Prop)
  `{!forall r, Decision (P r)} (t : list sql.Row) :
  Forall (fun r => sql.id r <> id) t ->
  filter (fun r => sql.id r = id /\ P r) t = [].
Proof.
  induction 1 as [|r t Hr _ IH]; [reflexivity |].
  rewrite filter_cons, decide_False by tauto. exact IH.
Qed.

Lemma filter_ne_absent (id : Z) (t : list sql.Row) :
  Forall (fun r => sql.id r <> id) t ->
  filter (fun r => sql.id r <> id) t = t.
Proof.
  induction 1 as [|r t Hr _ IH]; [reflexivity |].
  rewrite filter_cons, decide_True by assumption. now rewrite IH.
Qed.

(** X6.  [Update] of an incident whose identifier no row carries, and
    [Delete] of such an identifier, return [incident not found with id N]
    when the driver lets the statement through, and leave the table exactly
    as it was. *)
Theorem write_to_missing_id_changes_nothing (incident : Incident) (id : Z)
  (d : sql.DB) :
  (Forall (fun r => sql.id r <> ID incident) (sql.table d) ->
   sql.driver d (sql.executed d)
     (sql.UpdateByID (Title incident) (Description incident)
        (AffectedService incident) (AISeverity incident)
        (AICategory incident) (UpdatedAt incident) (ID incident)) = None ->
   fst (repository.Update incident d)
   = (incident, Some (repository.notFound (ID incident))) /\
   sql.table (snd (repository.Update incident d)) = sql.table d) /\
  (Forall (fun r => sql.id r <> id) (sql.table d) ->
   sql.driver d (sql.executed d) (sql.DeleteByID id) = None ->
   fst (repository.Delete id d) = Some (repository.notFound id) /\
   sql.table (snd (repository.Delete id d)) = sql.table d).
Proof.
  split; intros Habsent Hdrv.
  - rewrite Update_run. cbn zeta. rewrite Hdrv. cbn [fst snd sql.sent sql.table].
    rewrite filter_and_absent, map_id_absent by assumption. split; reflexivity.
  - rewrite Delete_run, Hdrv. cbn [fst snd sql.sent sql.table].
    rewrite filter_id_absent, filter_ne_absent by assumption. split; reflexivity.
Qed.

Lemma write_to_missing_id_changes_nothing_witness :
  fst (repository.Delete 999 sampleDB)
  = Some (errorString "incident not found with id 999") /\
  sql.table (snd (repository.Delete 999 sampleDB)) = sql.table sampleDB.
Proof.
  apply (proj2 (write_to_missing_id_changes_nothing
                  (sql.Scan (sampleRow 999 0)) 999 sampleDB)).
  - repeat constructor; discriminate.
  - reflexivity.
Defined.

(** X7.  [Update] takes a row that the statement left as it was for a row
    that does not exist: when every row under the incident's identifier
    already holds the six values the statement stores, the update time to
    the second as the [TIMESTAMP] column keeps it, the server reports no
    changed row, and [Update] returns [incident not found with id N] while
    the table, which may well hold the incident, stays as it was. *)
Theorem Update_without_change_reports_not_found (incident : Incident)
  (d : sql.DB) :
  Forall (fun r => sql.id r = ID incident ->
                   sql.title r = Title incident /\
                   sql.description r = Description incident /\
                   sql.affected_service r = AffectedService incident /\
                   sql.ai_severity r = AISeverity incident /\
                   sql.ai_category r = AICategory incident /\
                   sql.updated_at r = sql.TIMESTAMP (UpdatedAt incident))
    (sql.table d) ->
  sql.driver d (sql.executed d)
    (sql.UpdateByID (Title incident) (Description incident)
       (AffectedService incident) (AISeverity incident)
       (AICategory incident) (UpdatedAt incident) (ID incident)) = None ->
  fst (repository.Update incident d)
  = (incident, Some (repository.notFound (ID incident))) /\
  sql.table (snd (repository.Update incident d)) = sql.table d.
Proof.
  intros Hsame Hdrv.
  set (set := sql.assign (Title incident) (Description incident)
                (AffectedService incident) (AISeverity incident)
                (AICategory incident) (sql.TIMESTAMP (UpdatedAt incident))).
  assert (Forall (fun r => sql.id r = ID incident -> set r = r) (sql.table d))
    as Hfix.
  { eapply Forall_impl; [exact Hsame |]. cbv beta.
    intros [i t de a sev cat c u] Hr Hi. unfold set.
    cbn [sql.id sql.title sql.description sql.affected_service sql.ai_severity
         sql.ai_category sql.updated_at sql.created_at sql.assign] in *.
    destruct (Hr Hi) as (<- & <- & <- & <- & <- & <-). reflexivity. }
  assert (filter (fun r => sql.id r = ID incident /\ set r <> r) (sql.table d)
          = []) as Hnone.
  { clear Hsame. induction Hfix as [|r t Hr _ IH]; [reflexivity |].
    rewrite filter_cons. case_decide as Hhit; [| exact IH].
    destruct Hhit as [Hi Hne]. destruct (Hne (Hr Hi)). }
  assert (map (fun r => if decide (sql.id r = ID incident) then set r else r)
            (sql.table d) = sql.table d) as Hmap.
  { clear Hsame Hnone. induction Hfix as [|r t Hr _ IH]; [reflexivity |].
    cbn [map]. rewrite IH. case_decide as Hi; [now rewrite (Hr Hi) | reflexivity]. }
  rewrite Update_run. cbn zeta. rewrite Hdrv. fold set.
  cbn [fst snd sql.sent sql.table]. rewrite Hnone, Hmap. split; reflexivity.
Qed.

Lemma Update_without_change_reports_not_found_witness :
  let again :=
    {| ID := 2; Title := "Disk full"; Description := "No space left";
       AffectedService := "Storage"; AISeverity := "High";
       AICategory := "Hardware"; CreatedAt := 10 * sql.second;
       UpdatedAt := 10 * sql.second + 300000000 |} in
  sampleRow 2 10 ∈ sql.table sampleDB /\
  fst (repository.Update again sampleDB)
  = (again, Some (errorString "incident not found with id 2")).
Proof.
  intros again. split.
  - cbn [sql.table sampleDB]. right. left.
  - refine (proj1 (Update_without_change_reports_not_found again sampleDB _ _)).
    + cbn [sql.table sampleDB].
      repeat (apply Forall_cons;
              split; [cbn; intros Hid; first [discriminate Hid | repeat split] |]).
      constructor.
    + reflexivity.
Defined.


Lemma filter_id_other (id j : Z) (t : list sql.Row) :
  j <> id ->
  filter (fun r => sql.id r = j) (filter (fun r => sql.id r <> id) t)
  = filter (fun r => sql.id r = j) t.
Proof.
  intros Hj. induction t as [|r t IH]; [reflexivity |].
  rewrite !filter_cons. destruct (decide (sql.id r <> id)) as [Hr|Hr].
  - rewrite filter_cons. case_decide; now rewrite IH.
  - rewrite IH, decide_False; [reflexivity |].
    apply dec_stable in Hr. congruence.
Qed.

(** X8.  A [Delete] that returns no error found at least one row with the
    identifier and removed every such row and no other; afterwards no row
    carries the identifier, rows of other identifiers are found as before,
    and a [GetByID] of the identifier that the driver lets through answers
    [incident not found]. *)
Theorem Delete_removes_the_incident (id : Z) (d d' : sql.DB) :
  repository.Delete id d = (None, d') ->
  (exists row, row ∈ sql.table d /\ sql.id row = id) /\
  sql.table d' = filter (fun r => sql.id r <> id) (sql.table d) /\
  Forall (fun r => sql.id r <> id) (sql.table d') /\
  (forall j, j <> id ->
     filter (fun r => sql.id r = j) (sql.table d')
     = filter (fun r => sql.id r = j) (sql.table d)) /\
  (sql.driver d' (sql.executed d') (sql.SelectByID id) = None ->
   fst (repository.GetByID id d') = Err (repository.notFound id)).
Proof.
  rewrite Delete_run.
  destruct (sql.driver d (sql.executed d) (sql.DeleteByID id)); [discriminate |].
  case_decide as Hn; [discriminate |]. intros [= <-].
  cbn [sql.sent sql.table sql.executed sql.driver].
  assert (Forall (fun r => sql.id r <> id)
            (filter (fun r => sql.id r <> id) (sql.table d))) as Hgone.
  { apply Forall_forall. intros r Hr. now apply list_elem_of_filter in Hr. }
  split; [| split; [reflexivity | split; [exact Hgone | split]]].
  - destruct (filter (fun r => sql.id r = id) (sql.table d)) as [|row rest] eqn:Hf;
      [simpl in Hn; lia |].
    exists row. assert (row ∈ filter (fun r => sql.id r = id) (sql.table d)) as Hin
      by (rewrite Hf; left).
    apply list_elem_of_filter in Hin. tauto.
  - intros j Hj. now apply filter_id_other.
  - intros Hdrv. rewrite GetByID_run.
    cbn [fst sql.sent sql.table sql.executed sql.driver]. rewrite Hdrv.
    now rewrite filter_id_absent.
Qed.

Lemma Delete_removes_the_incident_witness :
  exists d',
    repository.Delete 2 sampleDB = (None, d') /\
    sql.table d' = [sampleRow 1 20; sampleRow 3 30] /\
    fst (repository.GetByID 2 d') = Err (errorString "incident not found with id 2").
Proof.
  eexists. split; [reflexivity |].
  edestruct (Delete_removes_the_incident 2 sampleDB) as (_ & Ht & _ & _ & Hget);
    [reflexivity |].
  split; [exact Ht |]. apply Hget. reflexivity.
Defined.





Lemma run_counter_grows (s : sql.Stmt) (d : sql.DB) :
  sql.auto_increment d <= sql.auto_increment (snd (sql.run s d)).
Proof.
  unfold sql.run. destruct (sql.driver d (sql.executed d) s); [simpl; lia |].
  destruct s; simpl; lia.
Qed.

Lemma runAll_counter_grows (ss : list sql.Stmt) (d : sql.DB) :
  sql.auto_increment d <= sql.auto_increment (runAll ss d).
Proof.
  revert d. induction ss as [|s ss IH]; intros d; simpl; [lia |].
  etransitivity; [apply (run_counter_grows s) | apply IH].
Qed.

(** X10.  [Create] hands out identifiers in increasing order: a successful
    [Create] returns the incident under the current value of the counter,
    and any later successful [Create], whatever statements were run in
    between, returns a strictly greater identifier. *)
Theorem Create_identifiers_increase (i1 i2 : Incident) (ss : list sql.Stmt)
  (d : sql.DB) :
  let first := repository.Create i1 d in
  let second := repository.Create i2 (runAll ss (snd first)) in
  snd (fst first) = None ->
  snd (fst second) = None ->
  ID (fst (fst first)) = sql.auto_increment d /\
  ID (fst (fst first)) < ID (fst (fst second)).
Proof.
  cbn zeta. rewrite Create_run. cbn zeta.
  destruct (sql.driver d (sql.executed d) _); [discriminate |].
  cbn [fst snd]. intros _.
  set (d1 := sql.sent _ d _ _).
  pose proof (runAll_counter_grows ss d1) as Hgrow.
  rewrite Create_run. cbn zeta.
  destruct (sql.driver (runAll ss d1) _ _); [discriminate |].
  cbn [fst snd numbered ID]. intros _.
  split; [reflexivity |]. subst d1. cbn [sql.sent sql.auto_increment] in Hgrow. lia.
Qed.

Lemma Create_identifiers_increase_witness :
  ID (fst (fst (repository.Create (sql.Scan (sampleRow 0 5)) sampleDB))) = 4 /\
  ID (fst (fst (repository.Create (sql.Scan (sampleRow 0 6))
                  (runAll [sql.DeleteByID 4; sql.SelectAll]
                     (snd (repository.Create (sql.Scan (sampleRow 0 5)) sampleDB))))))
  = 5.
Proof.
  destruct (Create_identifiers_increase (sql.Scan (sampleRow 0 5))
              (sql.Scan (sampleRow 0 6)) [sql.DeleteByID 4; sql.SelectAll] sampleDB)
    as [H1 H2]; [reflexivity | reflexivity |].
  split; [exact H1 | reflexivity].
Defined.

Lemma NoDup_map_filter {A B : Type} (f : A -> B) (P : A -> Prop)
  `{!forall x, Decision (P x)} (l : list A) :
  NoDup (map f l) -> NoDup (map f (filter P l)).
Proof.
  induction l as [|x l IH]; [trivial |]. simpl. intros Hnd.
  apply NoDup_cons in Hnd as [Hx Hnd]. rewrite filter_cons.
  destruct (decide (P x)); [| now apply IH]. simpl. apply NoDup_cons.
  split; [| now apply IH]. intros Hin. apply Hx.
  apply list_elem_of_In, in_map_iff in Hin as (y & Hy & Hin).
  apply list_elem_of_In, in_map_iff. exists y. split; [exact Hy |].
  apply list_elem_of_In. apply list_elem_of_In in Hin.
  now apply list_elem_of_filter in Hin.
Qed.

Lemma run_distinct_ids (s : sql.Stmt) (d : sql.DB) :
  ids_below_counter d -> distinct_ids d -> distinct_ids (snd (sql.run s d)).
Proof.
  unfold distinct_ids, ids_below_counter, sql.run. intros Hids Hnd.
  destruct (sql.driver d (sql.executed d) s); [exact Hnd |].
  destruct s; cbn [snd sql.sent sql.table]; try exact Hnd.
  - rewrite map_app. apply NoDup_app. split; [exact Hnd |]. split.
    + intros i Hi Hnew. apply list_elem_of_singleton in Hnew. subst i.
      apply list_elem_of_In, in_map_iff in Hi as (r & Hr & Hin).
      rewrite Forall_forall in Hids. apply list_elem_of_In in Hin.
      specialize (Hids r Hin). simpl in Hr. lia.
    + apply NoDup_singleton.
  - now rewrite (proj1 (map_assign_frame _ _ _ _ _ _ _ _)).
  - now apply NoDup_map_filter.
Qed.

Lemma perform_run (c : Call) (d : sql.DB) :
  exists s, perform c d = snd (sql.run s d).
Proof.
  destruct c as [incident|id| |incident|id]; cbn [perform].
  - exists (sql.Insert (Title incident) (Description incident)
              (AffectedService incident) (AISeverity incident)
              (AICategory incident) (CreatedAt incident) (UpdatedAt incident)).
    rewrite Create_run. cbn zeta. unfold sql.run.
    destruct (sql.driver d (sql.executed d) _); reflexivity.
  - exists (sql.SelectByID id). rewrite GetByID_run. unfold sql.run.
    destruct (sql.driver d (sql.executed d) _); reflexivity.
  - exists sql.SelectAll. rewrite GetAll_run. unfold sql.run.
    destruct (sql.driver d (sql.executed d) _); reflexivity.
  - exists (sql.UpdateByID (Title incident) (Description incident)
              (AffectedService incident) (AISeverity incident)
              (AICategory incident) (UpdatedAt incident) (ID incident)).
    rewrite Update_run. cbn zeta. unfold sql.run.
    destruct (sql.driver d (sql.executed d) _); reflexivity.
  - exists (sql.DeleteByID id). rewrite Delete_run. unfold sql.run.
    destruct (sql.driver d (sql.executed d) _); reflexivity.
Qed.

Lemma performAll_invariant (cs : list Call) (d : sql.DB) :
  ids_below_counter d -> distinct_ids d ->
  ids_below_counter (performAll cs d) /\ distinct_ids (performAll cs d) /\
  sql.auto_increment d <= sql.auto_increment (performAll cs d).
Proof.
  revert d. induction cs as [|c cs IH]; intros d Hids Hnd.
  { split; [exact Hids |]. split; [exact Hnd | reflexivity]. }
  change (performAll (c :: cs) d) with (performAll cs (perform c d)).
  destruct (perform_run c d) as [s Hs].
  destruct (IH (perform c d)) as (H1 & H2 & H3).
  - rewrite Hs. now apply run_ids_below_counter.
  - rewrite Hs. now apply run_distinct_ids.
  - repeat split; [exact H1 | exact H2 |].
    etransitivity; [| exact H3]. rewrite Hs. apply run_counter_grows.
Qed.

(** X11.  No identifier is shared or reused.  From a table whose
    identifiers are pairwise distinct and below the counter, every sequence
    of calls of the repository, whether the driver accepts or refuses their
    statements, leads to such a table again; and a [Create] that succeeds
    afterwards returns an identifier greater than that of every row the
    table holds then and of every row it held at the start, deleted in
    between or not. *)
Theorem identifiers_never_reused (cs : list Call) (incident : Incident)
  (d : sql.DB) :
  ids_below_counter d -> distinct_ids d ->
  let d' := performAll cs d in
  let created := repository.Create incident d' in
  (ids_below_counter d' /\ distinct_ids d') /\
  (snd (fst created) = None ->
   Forall (fun r => sql.id r < ID (fst (fst created))) (sql.table d) /\
   Forall (fun r => sql.id r < ID (fst (fst created))) (sql.table d') /\
   distinct_ids (snd created)).
Proof.
  intros Hids Hnd d' created.
  destruct (performAll_invariant cs d Hids Hnd) as (Hids' & Hnd' & Hgrow).
  fold d' in Hids', Hnd', Hgrow. split; [split; assumption |].
  subst created. rewrite Create_run. cbn zeta.
  destruct (sql.driver d' (sql.executed d') _) eqn:Hdrv; [discriminate |].
  cbn [fst snd numbered ID]. intros _. split; [| split].
  - eapply Forall_impl; [exact Hids |]. cbv beta. intros r Hr. lia.
  - exact Hids'.
  - unfold distinct_ids. cbn [sql.sent sql.table]. rewrite map_app.
    apply NoDup_app. split; [exact Hnd' |]. split; [| apply NoDup_singleton].
    intros i Hi Hnew. apply list_elem_of_singleton in Hnew. subst i.
    apply list_elem_of_In, in_map_iff in Hi as (r & Hr & Hin).
    apply list_elem_of_In in Hin. unfold ids_below_counter in Hids'.
    rewrite Forall_forall in Hids'. specialize (Hids' r Hin).
    cbn [row_of sql.id] in Hr. lia.
Qed.

Lemma identifiers_never_reused_witness :
  let d' := performAll [CallDelete 3] sampleDB in
  let created := repository.Create (sql.Scan (sampleRow 0 40)) d' in
  sql.table d' = [sampleRow 1 20; sampleRow 2 10] /\
  Forall (fun r => sql.id r < ID (fst (fst created))) (sql.table sampleDB) /\
  distinct_ids (snd created).
Proof.
  intros d' created. split; [reflexivity |].
  destruct (identifiers_never_reused [CallDelete 3] (sql.Scan (sampleRow 0 40))
              sampleDB) as [_ Hnew].
  - repeat constructor.
  - unfold distinct_ids. apply (bool_decide_unpack _). vm_compute. exact I.
  - destruct (Hnew eq_refl) as (Hstart & _ & Hnd). split; [exact Hstart | exact Hnd].
Defined.

(** X12.  With a driver that lets the query through, [GetByID] finds an
    incident exactly when a row carries the identifier; the incident found
    has that identifier and is the copy of a row of the table. *)
Theorem GetByID_finds_stored_rows (id : Z) (d : sql.DB) :
  sql.driver d (sql.executed d) (sql.SelectByID id) = None ->
  ((exists row, row ∈ sql.table d /\ sql.id row = id) <->
   (exists incident, fst (repository.GetByID id d) = Ok incident)) /\
  (forall incident,
     fst (repository.GetByID id d) = Ok incident ->
     ID incident = id /\
     exists row, row ∈ sql.table d /\ sql.Scan row = incident).
Proof.
  intros Hdrv. rewrite GetByID_run, Hdrv. cbn [fst].
  destruct (filter (fun r => sql.id r = id) (sql.table d)) as [|row rest] eqn:Hf.
  - split; [split |]; try (intros [? ?]; discriminate); try discriminate.
    intros (row & Hin & Hid).
    assert (row ∈ filter (fun r => sql.id r = id) (sql.table d)) as H
      by now apply list_elem_of_filter.
    rewrite Hf in H. inversion H.
  - assert (row ∈ filter (fun r => sql.id r = id) (sql.table d)) as Hin
      by (rewrite Hf; left).
    apply list_elem_of_filter in Hin as [Hid Hin].
    split; [split; eauto |]. intros incident [= <-]. split; [exact Hid | eauto].
Qed.

Lemma GetByID_finds_stored_rows_witness :
  exists incident, fst (repository.GetByID 3 sampleDB) = Ok incident.
Proof.
  apply (proj1 (GetByID_finds_stored_rows 3 sampleDB eq_refl)).
  exists (sampleRow 3 30). split; [| reflexivity].
  right. right. left.
Defined.

(** ** The use case in the running service *)

(** X13.  When the classifier has answered but the driver refuses the
    insertion, [CreateIncident] returns the driver's error wrapped as
    [failed to create incident: ...] and nothing is stored, although the
    classifier was consulted and the clock read twice. *)
Theorem CreateIncident_store_failure {X : Type} (ai : AIService X)
  {clock : Clock X} (req : CreateIncidentRequest.t) (w : World X)
  (analysis : IncidentAnalysis) (x1 x2 x3 : X) (t1 t2 : Time) (err : error) :
  AnalyzeIncident (CreateIncidentRequest.Title req)
    (CreateIncidentRequest.Description req)
    (CreateIncidentRequest.AffectedService req) (outside w)
  = (Ok analysis, x1) ->
  Now x1 = (t1, x2) ->
  Now x2 = (t2, x3) ->
  sql.driver (db w) (sql.executed (db w))
    (sql.Insert (CreateIncidentRequest.Title req)
       (CreateIncidentRequest.Description req)
       (CreateIncidentRequest.AffectedService req)
       (Severity analysis) (Category analysis) t1 t2) = Some err ->
  exists w',
    usecase.CreateIncident (aiService := World_AIService ai) req w
    = (Err (wrapError ("failed to create incident: " +:+ Error err) err), w') /\
    sql.table (db w') = sql.table (db w) /\
    sql.auto_increment (db w') = sql.auto_increment (db w) /\
    outside w' = x3.
Proof.
  intros Hai Ht1 Ht2 Hdrv.
  rewrite CreateIncident_run, Hai, Ht1, Ht2, Create_run.
  cbn [incidentOf Title Description AffectedService AISeverity AICategory
       CreatedAt UpdatedAt].
  rewrite Hdrv. eexists. split; [reflexivity |]. repeat split.
Qed.

Lemma CreateIncident_store_failure_witness :
  exists w',
    createIncident sampleRequest
      {| db := brokenDB;
         outside := scripted (dq "{'severity':'High','category':'Network'}") 5 |}
    = (Err (wrapError "failed to create incident: database error"
              (errorString "database error")), w') /\
    sql.table (db w') = [] /\ outside w' = {| completions := []; wall := 7 |}.
Proof.
  destruct (CreateIncident_store_failure (service.AsAIService testService)
              sampleRequest
              {| db := brokenDB;
                 outside := scripted (dq "{'severity':'High','category':'Network'}") 5 |}
              {| Severity := "High"; Category := "Network" |}
              {| completions := []; wall := 5 |}
              {| completions := []; wall := 6 |}
              {| completions := []; wall := 7 |} 5 6
              (errorString "database error"))
    as (w' & Hrun & Ht & _ & Hout);
    [vm_compute; reflexivity | reflexivity | reflexivity | reflexivity |].
  exists w'. split; [exact Hrun |]. split; [exact Ht | exact Hout].
Defined.




Lemma filter_length_both (id : Z) (t : list sql.Row) :
  (length (filter (fun r => sql.id r = id) t)
   + length (filter (fun r => sql.id r <> id) t) = length t)%nat.
Proof.
  induction t as [|r t IH]; [reflexivity |]. rewrite !filter_cons.
  destruct (decide (sql.id r = id)).
  - rewrite decide_False by tauto. simpl. lia.
  - rewrite decide_True by assumption. simpl. lia.
Qed.

(** X15.  After a [DeleteIncident] that returns no error, the classifier
    and the clock have not been touched, a [GetIncident] of the identifier
    that the driver lets through answers [incident not found], and the
    listing holds no incident with that identifier and is shorter than the
    table was. *)
Theorem deleted_incident_is_gone {X : Type} (id : Z) (w w' : World X) :
  usecase.DeleteIncident id w = (None, w') ->
  outside w' = outside w /\
  (sql.driver (db w') (sql.executed (db w')) (sql.SelectByID id) = None ->
   fst (usecase.GetIncident id w') = Err (repository.notFound id)) /\
  (sql.driver (db w') (sql.executed (db w')) sql.SelectAll = None ->
   exists l,
     fst (usecase.GetAllIncidents w') = Ok l /\
     Forall (fun incident => ID incident <> id) l /\
     (length l < length (sql.table (db w)))%nat).
Proof.
  unfold usecase.DeleteIncident. cbn [Delete World_Repository]. unfold onDB.
  rewrite Delete_run.
  destruct (sql.driver (db w) (sql.executed (db w)) (sql.DeleteByID id));
    [discriminate |].
  case_decide as Hn; [discriminate |]. intros [= <-]. cbn [db outside].
  split; [reflexivity |]. split.
  - intros Hdrv. unfold usecase.GetIncident. cbn [GetByID World_Repository].
    unfold onDB. cbn [db]. rewrite GetByID_run.
    cbn [fst sql.sent sql.table sql.executed sql.driver] in *. rewrite Hdrv.
    rewrite filter_id_absent; [reflexivity |].
    apply Forall_forall. intros r Hr. now apply list_elem_of_filter in Hr.
  - intros Hdrv.
    destruct (GetAll_sorted _ Hdrv) as (l & Hl & _ & Hperm).
    exists l. unfold usecase.GetAllIncidents. cbn [GetAll World_Repository].
    unfold onDB. cbn [db] in *.
    destruct (repository.GetAll _) as [r d']. cbn [fst] in *.
    split; [exact Hl |]. cbn [sql.sent sql.table] in Hperm. split.
    + rewrite Hperm. apply Forall_forall. intros incident Hin.
      apply list_elem_of_In, in_map_iff in Hin as (r0 & <- & Hr0).
      apply list_elem_of_In, list_elem_of_filter in Hr0 as [Hne _]. exact Hne.
    + rewrite Hperm, length_map.
      pose proof (filter_length_both id (sql.table (db w))) as Hboth. lia.
Qed.

Lemma deleted_incident_is_gone_witness :
  exists w' l,
    usecase.DeleteIncident 2 {| db := sampleDB; outside := scripted "" 0 |}
    = (None, w') /\
    fst (usecase.GetIncident 2 w')
    = Err (errorString "incident not found with id 2") /\
    fst (usecase.GetAllIncidents w') = Ok l /\
    Forall (fun incident => ID incident <> 2) l.
Proof.
  edestruct (deleted_incident_is_gone 2
               {| db := sampleDB; outside := scripted "" 0 |})
    as (_ & Hget & Hlist); [reflexivity |].
  destruct Hlist as (l & Hl & Hgone & _); [reflexivity |].
  eexists _, l. split; [reflexivity |].
  split; [apply Hget; reflexivity |]. split; [exact Hl | exact Hgone].
Defined.



(** X17.  When the fetch of [UpdateIncident] fails, because no row carries
    the identifier or because the driver refuses the query, the update ends
    there with the error of the fetch: the classifier is not consulted, the
    clock is not read, and the only statement sent is the [SELECT]. *)
Theorem UpdateIncident_failed_fetch_spends_no_call {X : Type}
  (ai : AIService X) {clock : Clock X} (id : Z)
  (req : CreateIncidentRequest.t) (w : World X) (e : error) :
  fst (repository.GetByID id (db w)) = Err e ->
  exists w',
    usecase.UpdateIncident (aiService := World_AIService ai) id req w
    = (Err e, w') /\
    outside w' = outside w /\
    sql.table (db w') = sql.table (db w) /\
    sql.executed (db w') = sql.executed (db w) ++ [sql.SelectByID id].
Proof.
  intros Hget. rewrite UpdateIncident_run.
  destruct (repository.GetByID id (db w)) as [r d1] eqn:Hrun.
  cbn [fst] in Hget. subst r. eexists. split; [reflexivity |].
  rewrite GetByID_run in Hrun. injection Hrun as _ <-. repeat split.
Qed.

Lemma UpdateIncident_failed_fetch_spends_no_call_witness :
  exists w',
    updateIncident 999 sampleRequest
      {| db := sampleDB;
         outside := scripted (dq "{'severity':'Low','category':'Network'}") 50 |}
    = (Err (errorString "incident not found with id 999"), w') /\
    outside w' = scripted (dq "{'severity':'Low','category':'Network'}") 50.
Proof.
  destruct (UpdateIncident_failed_fetch_spends_no_call
              (service.AsAIService testService) 999 sampleRequest
              {| db := sampleDB;
                 outside := scripted (dq "{'severity':'Low','category':'Network'}") 50 |}
              (errorString "incident not found with id 999"))
    as (w' & Hrun & Hout & _); [reflexivity |].
  exists w'. split; [exact Hrun | exact Hout].
Defined.

(** ** The handlers *)


Lemma missingField_true (req : CreateIncidentRequest.t) :
  handler.missingField req = true <->
  CreateIncidentRequest.Title req = EmptyString \/
  CreateIncidentRequest.Description req = EmptyString \/
  CreateIncidentRequest.AffectedService req = EmptyString.
Proof.
  unfold handler.missingField. rewrite !orb_true_iff, !String.eqb_eq. tauto.
Qed.

(** X18.  The two writing handlers answer 400 without doing anything else
    when the body could not be bound ([Invalid request body]) or when the
    title, the description or the affected service is empty: the world is
    untouched, so neither the classifier nor the database is reached. *)
Theorem handlers_reject_incomplete_requests {W : Type}
  {incidentRepo : IncidentRepository W} {aiService : AIService W}
  {clock : Clock W} (c : handler.Context) (w : W) :
  (forall e, handler.bound c = Err e ->
     handler.CreateIncident c w
     = (handler.HTTPError 400 "Invalid request body", w) /\
     (forall id, strconv.Atoi (handler.Param c "id") = inl id ->
        handler.UpdateIncident c w
        = (handler.HTTPError 400 "Invalid request body", w))) /\
  (forall req,
     handler.bound c = Ok req ->
     CreateIncidentRequest.Title req = EmptyString \/
     CreateIncidentRequest.Description req = EmptyString \/
     CreateIncidentRequest.AffectedService req = EmptyString ->
     handler.CreateIncident c w
     = (handler.HTTPError 400
          "Title, description, and affected service are required", w) /\
     (forall id, strconv.Atoi (handler.Param c "id") = inl id ->
        handler.UpdateIncident c w
        = (handler.HTTPError 400
             "Title, description, and affected service are required", w))).
Proof.
  split.
  - intros e Hb. unfold handler.CreateIncident, handler.UpdateIncident.
    rewrite Hb. split; [reflexivity |]. intros id ->. reflexivity.
  - intros req Hb Hmiss. apply missingField_true in Hmiss.
    unfold handler.CreateIncident, handler.UpdateIncident.
    rewrite Hb, Hmiss. split; [reflexivity |]. intros id ->. reflexivity.
Qed.

Lemma handlers_reject_incomplete_requests_witness :
  handler.CreateIncident
    (aiService := World_AIService (service.AsAIService testService))
    (withID "" (Ok {| CreateIncidentRequest.Title := "Test Incident";
                      CreateIncidentRequest.Description := "";
                      CreateIncidentRequest.AffectedService := "" |}))
    {| db := sampleDB; outside := scripted "unused" 0 |}
  = (handler.HTTPError 400
       "Title, description, and affected service are required",
     {| db := sampleDB; outside := scripted "unused" 0 |}) /\
  handler.UpdateIncident
    (aiService := World_AIService (service.AsAIService testService))
    (withID "2" (Err (errorString "unexpected EOF")))
    {| db := sampleDB; outside := scripted "unused" 0 |}
  = (handler.HTTPError 400 "Invalid request body",
     {| db := sampleDB; outside := scripted "unused" 0 |}).
Proof.
  split.
  - refine (proj1 (proj2 (handlers_reject_incomplete_requests
                            (aiService := World_AIService
                                            (service.AsAIService testService))
                            (withID "" (Ok _)) _) _ eq_refl _)).
    right. left. reflexivity.
  - refine (proj2 (proj1 (handlers_reject_incomplete_requests
                            (aiService := World_AIService
                                            (service.AsAIService testService))
                            (withID "2" (Err _)) _) _ eq_refl) 2 _).
    reflexivity.
Defined.

(** X19.  [GetIncident], [UpdateIncident] and [DeleteIncident] answer 400
    [Invalid incident ID] and leave the world untouched whenever
    [strconv.Atoi] rejects the [id] parameter, in particular when the
    parameter is absent; [UpdateIncident] does so before it looks at the
    body. *)
Theorem handlers_reject_bad_id {W : Type}
  {incidentRepo : IncidentRepository W} {aiService : AIService W}
  {clock : Clock W} (c : handler.Context) (w : W) :
  (forall e, strconv.Atoi (handler.Param c "id") = inr e ->
     handler.GetIncident c w = (handler.HTTPError 400 "Invalid incident ID", w) /\
     handler.UpdateIncident c w = (handler.HTTPError 400 "Invalid incident ID", w) /\
     handler.DeleteIncident c w = (handler.HTTPError 400 "Invalid incident ID", w)) /\
  (handler.params c !! "id" = None ->
   strconv.Atoi (handler.Param c "id") = inr strconv.ErrSyntax).
Proof.
  split.
  - intros e He.
    unfold handler.GetIncident, handler.UpdateIncident, handler.DeleteIncident.
    rewrite He. repeat split.
  - intros Hnone. unfold handler.Param. now rewrite Hnone.
Qed.

Lemma handlers_reject_bad_id_witness :
  handler.UpdateIncident
    (aiService := World_AIService (service.AsAIService testService))
    (withID "12a" (Err (errorString "unexpected EOF")))
    {| db := sampleDB; outside := scripted "unused" 0 |}
  = (handler.HTTPError 400 "Invalid incident ID",
     {| db := sampleDB; outside := scripted "unused" 0 |}).
Proof.
  refine (proj1 (proj2 (proj1 (handlers_reject_bad_id
                                 (aiService := World_AIService
                                                 (service.AsAIService testService))
                                 _ _) strconv.ErrSyntax _))).
  reflexivity.
Defined.

(** X20.  The [GetIncident] handler answers every failure of the lookup in
    one way, 404 [Incident not found]: a storage failure is not told apart
    from a missing incident, and the cause is not shown. *)
Theorem GetIncident_handler_masks_failures {X : Type} (c : handler.Context)
  (id : Z) (w : World X) :
  strconv.Atoi (handler.Param c "id") = inl id ->
  (forall e, fst (repository.GetByID id (db w)) = Err e ->
     fst (handler.GetIncident c w)
     = handler.HTTPError 404 "Incident not found") /\
  (forall err, sql.driver (db w) (sql.executed (db w)) (sql.SelectByID id)
               = Some err ->
     fst (handler.GetIncident c w)
     = handler.HTTPError 404 "Incident not found") /\
  (Forall (fun r => sql.id r <> id) (sql.table (db w)) ->
   fst (handler.GetIncident c w) = handler.HTTPError 404 "Incident not found").
Proof.
  intros Hid.
  assert (forall e, fst (repository.GetByID id (db w)) = Err e ->
            fst (handler.GetIncident c w)
            = handler.HTTPError 404 "Incident not found") as Hmask.
  { intros e He. unfold handler.GetIncident, bind. rewrite Hid.
    unfold usecase.GetIncident. cbn [GetByID World_Repository]. unfold onDB.
    destruct (repository.GetByID id (db w)) as [r d']. cbn [fst] in He.
    now subst r. }
  split; [exact Hmask |]. split.
  - intros err Hdrv. rewrite GetByID_run, Hdrv in Hmask. cbn [fst] in Hmask.
    case_decide; eapply Hmask; reflexivity.
  - intros Habsent. rewrite GetByID_run in Hmask. cbn [fst] in Hmask.
    destruct (sql.driver _ _ _).
    + case_decide; eapply Hmask; reflexivity.
    + rewrite filter_id_absent in Hmask by assumption. eapply Hmask. reflexivity.
Qed.

Lemma GetIncident_handler_masks_failures_witness :
  fst (handler.GetIncident (withID "1" (Err (errorString "no body")))
         {| db := brokenDB; outside := scripted "" 0 |})
  = handler.HTTPError 404 "Incident not found" /\
  fst (handler.GetIncident (withID "999" (Err (errorString "no body")))
         {| db := sampleDB; outside := scripted "" 0 |})
  = handler.HTTPError 404 "Incident not found".
Proof.
  split.
  - refine (proj1 (proj2 (GetIncident_handler_masks_failures _ 1 _ _))
              (errorString "database error") _); reflexivity.
  - refine (proj2 (proj2 (GetIncident_handler_masks_failures _ 999 _ _)) _);
      [reflexivity | repeat constructor; discriminate].
Defined.

(** X21.  For an identifier that no row carries, the [DeleteIncident] and
    [UpdateIncident] handlers answer 500, not 404, and their message ends
    with the text of the internal error, [incident not found with id N]. *)
Theorem write_handlers_answer_500_for_missing_id {X : Type}
  (ai : AIService X) {clock : Clock X} (c : handler.Context) (id : Z)
  (req : CreateIncidentRequest.t) (w : World X) :
  strconv.Atoi (handler.Param c "id") = inl id ->
  Forall (fun r => sql.id r <> id) (sql.table (db w)) ->
  (sql.driver (db w) (sql.executed (db w)) (sql.DeleteByID id) = None ->
   fst (handler.DeleteIncident c w)
   = handler.HTTPError 500
       ("Failed to delete incident: incident not found with id " +:+ pretty id)) /\
  (sql.driver (db w) (sql.executed (db w)) (sql.SelectByID id) = None ->
   handler.bound c = Ok req ->
   handler.missingField req = false ->
   fst (handler.UpdateIncident (aiService := World_AIService ai) c w)
   = handler.HTTPError 500
       ("Failed to update incident: incident not found with id " +:+ pretty id)).
Proof.
  intros Hid Habsent. split.
  - intros Hdrv. unfold handler.DeleteIncident, bind. rewrite Hid.
    unfold usecase.DeleteIncident. cbn [Delete World_Repository]. unfold onDB.
    rewrite Delete_run, Hdrv, filter_id_absent by assumption. reflexivity.
  - intros Hdrv Hb Hfull. unfold handler.UpdateIncident, bind.
    rewrite Hid, Hb, Hfull, UpdateIncident_run, GetByID_run, Hdrv.
    rewrite filter_id_absent by assumption. reflexivity.
Qed.

Lemma write_handlers_answer_500_for_missing_id_witness :
  fst (handler.DeleteIncident (withID "999" (Err (errorString "no body")))
         {| db := sampleDB; outside := scripted "" 0 |})
  = handler.HTTPError 500
      "Failed to delete incident: incident not found with id 999".
Proof.
  refine (proj1 (write_handlers_answer_500_for_missing_id
                   (service.AsAIService testService) _ 999 sampleRequest _ _ _) _);
    [reflexivity | repeat constructor; discriminate | reflexivity].
Defined.

(** X22.  Each handler answers with one of its few status codes whatever
    the request and the world: [CreateIncident] 201, 400 or 500;
    [GetIncident] 200, 400 or 404; [GetAllIncidents] 200 or 500;
    [UpdateIncident] and [DeleteIncident] 200, 400 or 500; [HealthCheck]
    200.  So no writing handler ever answers 404 and [GetIncident] never
    answers 500. *)
Theorem handler_status_codes {W : Type}
  {incidentRepo : IncidentRepository W} {aiService : AIService W}
  {clock : Clock W} (c : handler.Context) (w : W) :
  handler.code (fst (handler.CreateIncident c w)) ∈ [201; 400; 500] /\
  handler.code (fst (handler.GetIncident c w)) ∈ [200; 400; 404] /\
  handler.code (fst (handler.GetAllIncidents c w)) ∈ [200; 500] /\
  handler.code (fst (handler.UpdateIncident c w)) ∈ [200; 400; 500] /\
  handler.code (fst (handler.DeleteIncident c w)) ∈ [200; 400; 500] /\
  handler.code (fst (handler.HealthCheck c w)) = 200.
Proof.
  unfold handler.CreateIncident, handler.GetIncident, handler.GetAllIncidents,
    handler.UpdateIncident, handler.DeleteIncident, handler.HealthCheck, bind, ret.
  repeat split.
  - destruct (handler.bound c) as [req|e]; [| set_solver].
    destruct (handler.missingField req); [set_solver |].
    destruct (usecase.CreateIncident req w) as [[incident|err] w']; set_solver.
  - destruct (strconv.Atoi _) as [id|e]; [| set_solver].
    destruct (usecase.GetIncident id w) as [[incident|err] w']; set_solver.
  - destruct (usecase.GetAllIncidents w) as [[incidents|err] w']; set_solver.
  - destruct (strconv.Atoi _) as [id|e]; [| set_solver].
    destruct (handler.bound c) as [req|e]; [| set_solver].
    destruct (handler.missingField req); [set_solver |].
    destruct (usecase.UpdateIncident id req w) as [[incident|err] w']; set_solver.
  - destruct (strconv.Atoi _) as [id|e]; [| set_solver].
    destruct (usecase.DeleteIncident id w) as [[err|] w']; set_solver.
Qed.

(** X23.  With a driver that lets the query through, the [GetAllIncidents]
    handler answers 200 with the incidents most recent first and a [count]
    equal to the number of rows of the table. *)
Theorem GetAllIncidents_handler_counts {X : Type} (c : handler.Context)
  (w : World X) :
  sql.driver (db w) (sql.executed (db w)) sql.SelectAll = None ->
  exists l,
    fst (handler.GetAllIncidents c w)
    = handler.JSON 200
        (handler.Fields
           {[ "incidents" := handler.Many l;
              "count" := handler.Int (Z.of_nat (length (sql.table (db w)))) ]}) /\
    StronglySorted newest_first l /\
    l ≡ₚ map sql.Scan (sql.table (db w)).
Proof.
  intros Hdrv. destruct (GetAll_sorted (db w) Hdrv) as (l & Hl & Hs & Hp).
  exists l. unfold handler.GetAllIncidents, bind, usecase.GetAllIncidents.
  cbn [GetAll World_Repository]. unfold onDB.
  destruct (repository.GetAll (db w)) as [r d']. cbn [fst] in Hl. subst r.
  cbn [fst]. unfold ret.
  assert (length l = length (sql.table (db w))) as ->
    by now rewrite Hp, length_map.
  repeat split; assumption.
Qed.

Lemma GetAllIncidents_handler_counts_witness :
  exists l,
    fst (handler.GetAllIncidents (withID "" (Err (errorString "no body")))
           {| db := sampleDB; outside := scripted "" 0 |})
    = handler.JSON 200
        (handler.Fields {[ "incidents" := handler.Many l;
                           "count" := handler.Int 3 ]}) /\
    StronglySorted newest_first l /\
    l ≡ₚ map sql.Scan (sql.table sampleDB).
Proof.
  exact (GetAllIncidents_handler_counts
           (withID "" (Err (errorString "no body")))
           {| db := sampleDB; outside := scripted "" 0 |} eq_refl).
Defined.

(** ** Identifiers in decimal *)








(** ** Configuration *)

Lemma getEnv_cases (environ : gmap string string) (key fallback : string) :
  config.getEnv environ key fallback
  = match environ !! key with
    | Some (String c v) => String c v
    | _ => fallback
    end.
Proof.
  unfold config.getEnv, os.Getenv.
  destruct (environ !! key) as [[|c v]|]; reflexivity.
Qed.

(** X25.  [NewDatabaseConfig] never leaves a field empty, whatever the
    environment holds, and it does not tell a variable that is set to the
    empty text from one that is not set: both give the default. *)
Theorem NewDatabaseConfig_never_empty (environ : gmap string string) :
  (config.Host (config.NewDatabaseConfig environ) <> EmptyString /\
   config.Port (config.NewDatabaseConfig environ) <> EmptyString /\
   config.User (config.NewDatabaseConfig environ) <> EmptyString /\
   config.Password (config.NewDatabaseConfig environ) <> EmptyString /\
   config.DBName (config.NewDatabaseConfig environ) <> EmptyString) /\
  (forall key,
     config.NewDatabaseConfig (<[key := EmptyString]> environ)
     = config.NewDatabaseConfig (delete key environ)).
Proof.
  split.
  - unfold config.NewDatabaseConfig.
    cbn [config.Host config.Port config.User config.Password config.DBName].
    rewrite !getEnv_cases.
    repeat split; destruct (environ !! _) as [[|? ?]|]; discriminate.
  - intros key.
    assert (forall k fallback,
              config.getEnv (<[key := EmptyString]> environ) k fallback
              = config.getEnv (delete key environ) k fallback) as Hsame.
    { intros k fallback. rewrite !getEnv_cases.
      destruct (decide (k = key)) as [->|Hne].
      - now rewrite lookup_insert_eq, lookup_delete_eq.
      - now rewrite lookup_insert_ne, lookup_delete_ne by congruence. }
    unfold config.NewDatabaseConfig. now rewrite !Hsame.
Qed.

(** X26.  The configuration, and with it the data source name that
    [Connect] formats, depends on the environment through the five variables
    [DB_HOST], [DB_PORT], [DB_USER], [DB_PASSWORD] and [DB_NAME] only: two
    environments that agree on these give the same configuration. *)
Theorem NewDatabaseConfig_reads_five_variables
  (environ environ' : gmap string string) :
  (forall key, key ∈ ["DB_HOST"; "DB_PORT"; "DB_USER"; "DB_PASSWORD"; "DB_NAME"] ->
     environ !! key = environ' !! key) ->
  config.NewDatabaseConfig environ = config.NewDatabaseConfig environ' /\
  config.dsn (config.NewDatabaseConfig environ)
  = config.dsn (config.NewDatabaseConfig environ').
Proof.
  intros Hsame.
  assert (config.NewDatabaseConfig environ = config.NewDatabaseConfig environ')
    as Heq.
  { unfold config.NewDatabaseConfig. rewrite !getEnv_cases.
    rewrite !Hsame by (apply (bool_decide_unpack _); vm_compute; exact I).
    reflexivity. }
  split; [exact Heq | now rewrite Heq].
Qed.

Lemma NewDatabaseConfig_reads_five_variables_witness :
  config.dsn (config.NewDatabaseConfig
                {[ "DB_HOST" := "db"; "HOME" := "/root"; "DB" := "other" ]})
  = config.dsn (config.NewDatabaseConfig {[ "DB_HOST" := "db" ]}).
Proof.
  refine (proj2 (NewDatabaseConfig_reads_five_variables _ _ _)).
  intros key Hkey.
  repeat (apply elem_of_cons in Hkey as [->|Hkey]; [vm_compute; reflexivity |]).
  inversion Hkey.
Defined.

(** X27.  [Connect] returns a handle only if [sql.Open] gave that handle
    under the driver name [mysql] and the formatted data source name, the
    [Ping] on it returned no error, and the success line was then logged.
    Otherwise it returns an error that wraps its cause, the failure of
    [Open] or of [Ping], and the world is the one that failing call left: a
    failed [Open] is followed by no [Ping], and no failure logs the success
    line. *)
Theorem Connect_outcomes {W H : Type} `{!config.Server W H}
  (c : config.DatabaseConfig) (w : W) :
  match config.Connect c w with
  | (Ok h, w') =>
      exists w1 w2,
        config.Open "mysql" (config.dsn c) w = (Ok h, w1) /\
        config.Ping h w1 = (None, w2) /\
        config.Println "Successfully connected to MySQL database" w2 = (tt, w')
  | (Err e, w') =>
      exists cause,
        Unwrap e = Some cause /\
        ((config.Open "mysql" (config.dsn c) w = (Err cause, w') /\
          Error e = "failed to open database connection: " +:+ Error cause) \/
         (exists h w1,
            config.Open "mysql" (config.dsn c) w = (Ok h, w1) /\
            config.Ping h w1 = (Some cause, w') /\
            Error e = "failed to ping database: " +:+ Error cause))
  end.
Proof.
  unfold config.Connect, bind, ret.
  destruct (config.Open "mysql" (config.dsn c) w) as [[h|err] w1] eqn:Hopen.
  - destruct (config.Ping h w1) as [[err|] w2] eqn:Hping.
    + exists err. split; [reflexivity |]. right. now exists h, w1.
    + destruct (config.Println _ w2) as [[] w3] eqn:Hlog. now exists w1, w2.
  - exists err. split; [reflexivity |]. now left.
Qed.
